(** * Porky-Mpesa: the payment request orchestrator of [server.js]

    A shallow embedding of the Express server in [src/server.js]: the
    credential deriver ([generateTimestamp], [generatePassword]), the token
    fetcher ([generateAccessToken]) and the three M-Pesa routes
    ([/api/mpesa/stkpush], [/api/mpesa/callback],
    [/api/payment/status/:checkoutRequestID]).  The order route
    ([/api/orders]) takes no part in the payment flow and is left out.

    JavaScript values are modelled as they reach the handlers: JSON values
    plus [undefined]; numbers are IEEE-754 doubles (primitive floats);
    strings are sequences of UTF-16 code units.  The outside world (the wall
    clock, the gateway's replies, the console) is threaded through a state
    and exception monad.  A handler is run on the parsed [req.body] (or the
    route parameter) and returns what it passes to [res]. *)

From Stdlib Require Import List NArith ZArith Bool Ascii String Floats Lia.
From Stdlib Require DecimalPos.
Import ListNotations.

Set Implicit Arguments.

(* ================================================================== *)
(** ** JavaScript strings *)

Module JsString.

(** A JavaScript string is a sequence of 16-bit code units. *)
Definition code_unit := N.
Definition jsstring := list code_unit.

(** An ASCII literal of the source, as code units. *)
Fixpoint lit (s : string) : jsstring :=
  match s with
  | EmptyString => []
  | String c r => N_of_ascii c :: lit r
  end.

Fixpoint eqb (a b : jsstring) : bool :=
  match a, b with
  | [], [] => true
  | x :: a', y :: b' => N.eqb x y && eqb a' b'
  | _, _ => false
  end.

(** [s.startsWith(search)]: [search] is a prefix of [s]. *)
Fixpoint startsWith (s search : jsstring) {struct search} : bool :=
  match search with
  | [] => true
  | c :: search' =>
      match s with
      | [] => false
      | d :: s' => N.eqb d c && startsWith s' search'
      end
  end.

(** [s.slice(start)] with one argument: a negative [start] counts from
    the end, and both ends are clamped to the string. *)
Definition slice (s : jsstring) (start : Z) : jsstring :=
  let len := Z.of_nat (List.length s) in
  let from := if (start <? 0)%Z then Z.max (len + start) 0
              else Z.min start len in
  skipn (Z.to_nat from) s.

(** Decimal digits of a positive integer, most significant first. *)
Fixpoint uint_units (d : Decimal.uint) : jsstring :=
  match d with
  | Decimal.Nil => []
  | Decimal.D0 r => 48%N :: uint_units r
  | Decimal.D1 r => 49%N :: uint_units r
  | Decimal.D2 r => 50%N :: uint_units r
  | Decimal.D3 r => 51%N :: uint_units r
  | Decimal.D4 r => 52%N :: uint_units r
  | Decimal.D5 r => 53%N :: uint_units r
  | Decimal.D6 r => 54%N :: uint_units r
  | Decimal.D7 r => 55%N :: uint_units r
  | Decimal.D8 r => 56%N :: uint_units r
  | Decimal.D9 r => 57%N :: uint_units r
  end.

(** [String(n)] for an integer-valued number [n], as the getters of
    [Date] return them: decimal digits, with a minus sign when negative. *)
Definition of_int (z : Z) : jsstring :=
  match z with
  | Z0 => [48%N]
  | Zpos p => uint_units (Pos.to_uint p)
  | Zneg p => 45%N :: uint_units (Pos.to_uint p)
  end.

Definition is_digit (c : code_unit) : bool :=
  (48 <=? c)%N && (c <=? 57)%N.

End JsString.

Import JsString.

(* ================================================================== *)
(** ** [Buffer.from(string)]: UTF-8 encoding of a UTF-16 string *)

Module Utf8.

Definition byte_of_N (n : N) : Byte.byte :=
  match Byte.of_N (n mod 256) with
  | Some b => b
  | None => Byte.x00
  end.

Definition is_high_surrogate (c : code_unit) : bool :=
  (55296 <=? c)%N && (c <=? 56319)%N.

Definition is_low_surrogate (c : code_unit) : bool :=
  (56320 <=? c)%N && (c <=? 57343)%N.

(** The UTF-8 bytes of one code point. *)
Definition encode_code_point (cp : N) : list Byte.byte :=
  if (cp <? 128)%N then [byte_of_N cp]
  else if (cp <? 2048)%N then
    [byte_of_N (192 + cp / 64); byte_of_N (128 + cp mod 64)]
  else if (cp <? 65536)%N then
    [byte_of_N (224 + cp / 4096);
     byte_of_N (128 + (cp / 64) mod 64);
     byte_of_N (128 + cp mod 64)]
  else
    [byte_of_N (240 + cp / 262144);
     byte_of_N (128 + (cp / 4096) mod 64);
     byte_of_N (128 + (cp / 64) mod 64);
     byte_of_N (128 + cp mod 64)].

(** U+FFFD, which replaces a surrogate that has no partner. *)
Definition replacement : list Byte.byte :=
  [Byte.xef; Byte.xbf; Byte.xbd].

Fixpoint encode (s : jsstring) : list Byte.byte :=
  match s with
  | [] => []
  | c :: rest =>
      if is_high_surrogate c then
        match rest with
        | d :: rest' =>
            if is_low_surrogate d
            then encode_code_point
                   (65536 + (c - 55296) * 1024 + (d - 56320))
                 ++ encode rest'
            else replacement ++ encode rest
        | [] => replacement
        end
      else if is_low_surrogate c then replacement ++ encode rest
      else encode_code_point c ++ encode rest
  end.

End Utf8.

(* ================================================================== *)
(** ** [buffer.toString('base64')] *)

Module Base64.

Definition alphabet : jsstring :=
  lit "ABCDEFGHIJKLMNOPQRSTUVWXYZabcdefghijklmnopqrstuvwxyz0123456789+/".

(** The character of a 6-bit group. *)
Definition digit (i : N) : code_unit := nth (N.to_nat i) alphabet 0%N.

(** '=' *)
Definition pad : code_unit := 61%N.

(** Three bytes give four 6-bit groups; a tail of one or two bytes is
    completed with zero bits and padded with '='. *)
Fixpoint encode (bs : list Byte.byte) : jsstring :=
  match bs with
  | [] => []
  | [a] =>
      let x := Byte.to_N a in
      [digit (x / 4); digit ((x mod 4) * 16); pad; pad]
  | [a; b] =>
      let x := Byte.to_N a in
      let y := Byte.to_N b in
      [digit (x / 4); digit ((x mod 4) * 16 + y / 16);
       digit ((y mod 16) * 4); pad]
  | a :: b :: c :: rest =>
      let x := Byte.to_N a in
      let y := Byte.to_N b in
      let z := Byte.to_N c in
      digit (x / 4) :: digit ((x mod 4) * 16 + y / 16)
        :: digit ((y mod 16) * 4 + z / 64) :: digit (z mod 64)
        :: encode rest
  end.

End Base64.

(** [Buffer.from(s).toString('base64')] *)
Definition to_base64 (s : jsstring) : jsstring :=
  Base64.encode (Utf8.encode s).


(* ================================================================== *)
(** ** JavaScript values, as JSON delivers them *)

Module Js.

(** A parsed JSON value or [undefined].  The keys of a parsed object are
    distinct; [lookup] below reads the first entry of a key. *)
#[warnings="-register-all"]
Inductive jsval :=
| JUndefined
| JNull
| JBool (b : bool)
| JNum (x : float)
| JStr (s : jsstring)
| JArr (items : list jsval)
| JObj (props : list (jsstring * jsval)).

(** [!!v] *)
Definition truthy (v : jsval) : bool :=
  match v with
  | JUndefined | JNull => false
  | JBool b => b
  | JNum x => negb (PrimFloat.eqb x 0 || PrimFloat.is_nan x)
  | JStr s => match s with [] => false | _ :: _ => true end
  | JArr _ | JObj _ => true
  end.

Definition nullish (v : jsval) : bool :=
  match v with
  | JUndefined | JNull => true
  | _ => false
  end.

(** [a || b] *)
Definition js_or (a b : jsval) : jsval := if truthy a then a else b.

(** [v === n] for a number literal [n]. *)
Definition strict_eq_num (v : jsval) (n : float) : bool :=
  match v with
  | JNum x => PrimFloat.eqb x n
  | _ => false
  end.

(** [v === s] for a string literal [s]. *)
Definition strict_eq_str (v : jsval) (s : jsstring) : bool :=
  match v with
  | JStr t => JsString.eqb t s
  | _ => false
  end.

(** Own data property [k] of a parsed object, [undefined] when absent. *)
Fixpoint lookup (k : jsstring) (props : list (jsstring * jsval)) : jsval :=
  match props with
  | [] => JUndefined
  | (k', v) :: rest => if JsString.eqb k' k then v else lookup k rest
  end.

(** What a thrown exception carries for the handlers, which read only
    [error.response?.data] and [error.message]: [response_data] is
    [undefined] for an error without a response (a [TypeError], a
    transport failure). *)
Record js_error := mk_error {
  response_data : jsval;
  message : jsstring
}.

Definition TypeError (msg : jsstring) : js_error :=
  mk_error JUndefined msg.

Inductive result (A : Type) :=
| Ok (a : A)
| Throw (e : js_error).
Arguments Ok {A} a.
Arguments Throw {A} e.

Definition type_name (v : jsval) : jsstring :=
  match v with
  | JNull => lit "null"
  | _ => lit "undefined"
  end.

(** [v.k], for the property names the server reads ([Body],
    [stkCallback], [ResultCode], ...: none is an index, [length] or a
    member of a built-in prototype, so primitives and arrays answer
    [undefined]).  Reading a property of [null] or [undefined] throws;
    the message is V8's. *)
Definition get (v : jsval) (k : jsstring) : result jsval :=
  match v with
  | JUndefined | JNull =>
      Throw (TypeError (lit "Cannot read properties of " ++ type_name v
                        ++ lit " (reading '" ++ k ++ lit "')"))
  | JObj props => Ok (lookup k props)
  | _ => Ok JUndefined
  end.

(** [v?.k] *)
Definition get_opt (v : jsval) (k : jsstring) : result jsval :=
  if nullish v then Ok JUndefined else get v k.

(** [error.response?.data || error.message] *)
Definition error_details (e : js_error) : jsval :=
  js_or (response_data e) (JStr (message e)).

End Js.

Import Js.

(* ================================================================== *)
(** ** The world around the server: clock, gateway, console *)

(** What the getters of a [Date] return (integer-valued numbers). *)
Record Date := mk_Date {
  getFullYear : Z;
  getMonth : Z;
  getDate : Z;
  getHours : Z;
  getMinutes : Z;
  getSeconds : Z
}.

(** How an axios call settles: the promise resolves with a response, of
    which the server reads [data] only, or rejects with an error. *)
Inductive axios_reply :=
| Resolved (data : jsval)
| Rejected (e : js_error).

(** What the server does to the outside, in order.  [AxiosPost] records
    the token that follows [Bearer] in the [Authorization] header;
    [ConsoleLog] of the callback body records the value that
    [JSON.stringify] prints. *)
Inductive event :=
| AxiosGet (url : jsstring) (authorization : jsstring)
| AxiosPost (url : jsstring) (payload : jsval) (bearer : jsval)
| ConsoleLog (label : jsstring) (v : jsval)
| ConsoleError (label : jsstring) (v : jsval)
| ConsoleErrorObject (label : jsstring) (e : js_error).

Definition is_network (ev : event) : bool :=
  match ev with
  | AxiosGet _ _ | AxiosPost _ _ _ => true
  | _ => false
  end.

(** The [n]-th [new Date()] reads [clock n]; the [n]-th axios call settles
    as [gateway n]. *)
Record world := mk_world {
  clock : nat -> Date;
  clock_reads : nat;
  gateway : nat -> axios_reply;
  gateway_calls : nat;
  trace : list event
}.

Definition M (A : Type) : Type := world -> result A * world.

Definition ret {A} (a : A) : M A := fun w => (Ok a, w).

Definition throw {A} (e : js_error) : M A := fun w => (Throw e, w).

Definition bind {A B} (c : M A) (k : A -> M B) : M B :=
  fun w =>
    match c w with
    | (Ok a, w') => k a w'
    | (Throw e, w') => (Throw e, w')
    end.

(** [try { body } catch (error) { handler }] *)
Definition try_catch {A} (body : M A) (handler : js_error -> M A) : M A :=
  fun w =>
    match body w with
    | (Ok a, w') => (Ok a, w')
    | (Throw e, w') => handler e w'
    end.

Definition lift {A} (r : result A) : M A := fun w => (r, w).

Declare Scope js_scope.
Delimit Scope js_scope with js.
Notation "x <- c ;; k" := (bind c (fun x => k))
  (at level 100, c at next level, right associativity) : js_scope.
Notation "c ;;; k" := (bind c (fun _ => k))
  (at level 100, right associativity) : js_scope.
Open Scope js_scope.

Definition emit (ev : event) : M unit :=
  fun w => (Ok tt, mk_world (clock w) (clock_reads w) (gateway w)
                            (gateway_calls w) (trace w ++ [ev])).

(** [new Date()] *)
Definition new_Date : M Date :=
  fun w => (Ok (clock w (clock_reads w)),
            mk_world (clock w) (S (clock_reads w)) (gateway w)
                     (gateway_calls w) (trace w)).

Definition settle (ev : event) : M jsval :=
  fun w =>
    let w' := mk_world (clock w) (clock_reads w) (gateway w)
                       (S (gateway_calls w)) (trace w ++ [ev]) in
    match gateway w (gateway_calls w) with
    | Resolved data => (Ok data, w')
    | Rejected e => (Throw e, w')
    end.

(** [(await axios.get(url, {headers: {Authorization}})).data] *)
Definition axios_get (url authorization : jsstring) : M jsval :=
  settle (AxiosGet url authorization).

(** [(await axios.post(url, payload, {headers})).data] *)
Definition axios_post (url : jsstring) (payload bearer : jsval) : M jsval :=
  settle (AxiosPost url payload bearer).

Definition console_log (label : jsstring) (v : jsval) : M unit :=
  emit (ConsoleLog label v).

Definition console_error (label : jsstring) (v : jsval) : M unit :=
  emit (ConsoleError label v).

(** What Express sends back. *)
Inductive res_body :=
| Json (v : jsval)
| Send (text : jsstring).

Record response := mk_response {
  status : Z;
  body : res_body
}.

(* ================================================================== *)
(** ** The server *)

(** [MPESA_CONFIG]: each field is an environment variable, a string or
    [undefined]. *)
Record config := mk_config {
  consumerKey : option jsstring;
  consumerSecret : option jsstring;
  businessShortCode : option jsstring;
  passKey : option jsstring;
  callbackURL : option jsstring;
  environment : option jsstring
}.

(** [`${x}`] for an environment variable. *)
Definition template (x : option jsstring) : jsstring :=
  match x with
  | Some s => s
  | None => lit "undefined"
  end.

(** An environment variable as a value. *)
Definition env_value (x : option jsstring) : jsval :=
  match x with
  | Some s => JStr s
  | None => JUndefined
  end.

(** [('0' + n).slice(-2)] *)
Definition two_digits (n : Z) : jsstring :=
  slice (lit "0" ++ of_int n) (-2).

(** The value [generateTimestamp] returns for the date it has read. *)
Definition format_timestamp (date : Date) : jsstring :=
  of_int (getFullYear date)
  ++ two_digits (getMonth date + 1)
  ++ two_digits (getDate date)
  ++ two_digits (getHours date)
  ++ two_digits (getMinutes date)
  ++ two_digits (getSeconds date).

Definition generateTimestamp : M jsstring :=
  date <- new_Date ;;
  ret (format_timestamp date).

(** The ternary that computes [formattedPhone], on a string. *)
Definition formattedPhone (phoneNumber : jsstring) : jsstring :=
  if startsWith phoneNumber (lit "0")
  then lit "254" ++ slice phoneNumber 1
  else if startsWith phoneNumber (lit "+254")
  then slice phoneNumber 1
  else phoneNumber.

(** The same expression on any value: only a string has [startsWith];
    calling the missing method throws (V8's message). *)
Definition format_phone (phoneNumber : jsval) : result jsstring :=
  match phoneNumber with
  | JStr s => Ok (formattedPhone s)
  | _ => Throw (TypeError (lit "phoneNumber.startsWith is not a function"))
  end.

(** [const { phoneNumber, ... } = req.body]: destructuring [null] or
    [undefined] throws (V8's message). *)
Definition destructure (req_body : jsval) : result unit :=
  if nullish req_body
  then Throw (TypeError
                (lit "Cannot destructure property 'phoneNumber' of 'req.body' as it is "
                 ++ type_name req_body ++ lit "."))
  else Ok tt.

(** [metadata.find(item => item.Name === name)] on an array. *)
Fixpoint find_by_name (name : jsstring) (items : list jsval) : result jsval :=
  match items with
  | [] => Ok JUndefined
  | item :: rest =>
      match get item (lit "Name") with
      | Ok n => if strict_eq_str n name then Ok item
                else find_by_name name rest
      | Throw e => Throw e
      end
  end.

(** [metadata.find(item => item.Name === name)?.Value]: only an array has
    [find]. *)
Definition metadata_value (metadata : jsval) (name : jsstring) : result jsval :=
  match metadata with
  | JArr items =>
      match find_by_name name items with
      | Ok found => get_opt found (lit "Value")
      | Throw e => Throw e
      end
  | _ => Throw (TypeError (lit "metadata.find is not a function"))
  end.

Definition json_error (msg : string) : jsval :=
  JObj [(lit "error", JStr (lit msg))].

Section Server.

Variable MPESA_CONFIG : config.

Definition production : bool :=
  match environment MPESA_CONFIG with
  | Some s => JsString.eqb s (lit "production")
  | None => false
  end.

Definition oauth_url : jsstring :=
  if production
  then lit "https://api.safaricom.co.ke/oauth/v1/generate?grant_type=client_credentials"
  else lit "https://sandbox.safaricom.co.ke/oauth/v1/generate?grant_type=client_credentials".

Definition stkpush_url : jsstring :=
  if production
  then lit "https://api.safaricom.co.ke/mpesa/stkpush/v1/processrequest"
  else lit "https://sandbox.safaricom.co.ke/mpesa/stkpush/v1/processrequest".

Definition query_url : jsstring :=
  if production
  then lit "https://api.safaricom.co.ke/mpesa/stkpushquery/v1/query"
  else lit "https://sandbox.safaricom.co.ke/mpesa/stkpushquery/v1/query".

Definition generateAccessToken : M jsval :=
  try_catch
    (let auth := to_base64 (template (consumerKey MPESA_CONFIG) ++ lit ":"
                            ++ template (consumerSecret MPESA_CONFIG)) in
     data <- axios_get oauth_url (lit "Basic " ++ auth) ;;
     lift (get data (lit "access_token")))
    (fun error =>
       console_error (lit "Error generating access token:")
                     (error_details error) ;;;
       throw error).

(** The [password] of [generatePassword] for the timestamp it has read. *)
Definition derive_password (timestamp : jsstring) : jsstring :=
  to_base64 (template (businessShortCode MPESA_CONFIG)
             ++ template (passKey MPESA_CONFIG) ++ timestamp).

(** Returns [{ password, timestamp }]. *)
Definition generatePassword : M (jsstring * jsstring) :=
  timestamp <- generateTimestamp ;;
  let password := derive_password timestamp in
  ret (password, timestamp).

(** [app.post('/api/mpesa/stkpush', ...)] on [req.body]. *)
Definition stkpush (req_body : jsval) : M response :=
  try_catch
    (lift (destructure req_body) ;;;
     phoneNumber <- lift (get req_body (lit "phoneNumber")) ;;
     amount <- lift (get req_body (lit "amount")) ;;
     accountReference <- lift (get req_body (lit "accountReference")) ;;
     description <- lift (get req_body (lit "description")) ;;
     if negb (truthy phoneNumber) || negb (truthy amount)
     then ret (mk_response 400
                 (Json (json_error "Phone number and amount are required")))
     else
       phone <- lift (format_phone phoneNumber) ;;
       accessToken <- generateAccessToken ;;
       pt <- generatePassword ;;
       let password := fst pt in
       let timestamp := snd pt in
       let stkPushPayload :=
         JObj [(lit "BusinessShortCode",
                 env_value (businessShortCode MPESA_CONFIG));
               (lit "Password", JStr password);
               (lit "Timestamp", JStr timestamp);
               (lit "TransactionType", JStr (lit "CustomerPayBillOnline"));
               (lit "Amount", amount);
               (lit "PartyA", JStr phone);
               (lit "PartyB", env_value (businessShortCode MPESA_CONFIG));
               (lit "PhoneNumber", JStr phone);
               (lit "CallBackURL", env_value (callbackURL MPESA_CONFIG));
               (lit "AccountReference",
                 js_or accountReference (JStr (lit "Food Order")));
               (lit "TransactionDesc",
                 js_or description (JStr (lit "Payment for food order")))] in
       data <- axios_post stkpush_url stkPushPayload accessToken ;;
       checkoutRequestID <- lift (get data (lit "CheckoutRequestID")) ;;
       ret (mk_response 200
              (Json (JObj [(lit "success", JBool true);
                           (lit "message",
                             JStr (lit "STK Push initiated successfully"));
                           (lit "data", data);
                           (lit "checkoutRequestID", checkoutRequestID)]))))
    (fun error =>
       console_error (lit "STK Push error:") (error_details error) ;;;
       ret (mk_response 500
              (Json (JObj [(lit "error",
                             JStr (lit "Failed to initiate STK Push"));
                           (lit "details", error_details error)])))).

(** [app.get('/api/payment/status/:checkoutRequestID', ...)] on the route
    parameter, always a string. *)
Definition payment_status (checkoutRequestID : jsstring) : M response :=
  try_catch
    (accessToken <- generateAccessToken ;;
     pt <- generatePassword ;;
     timestamp <- generateTimestamp ;;
     data <- axios_post query_url
               (JObj [(lit "BusinessShortCode",
                        env_value (businessShortCode MPESA_CONFIG));
                      (lit "Password", JStr (fst pt));
                      (lit "Timestamp", JStr timestamp);
                      (lit "CheckoutRequestID", JStr checkoutRequestID)])
               accessToken ;;
     ret (mk_response 200 (Json data)))
    (fun error =>
       console_error (lit "Payment status check error:")
                     (error_details error) ;;;
       ret (mk_response 500 (Json (json_error "Failed to check payment status")))).

End Server.

(** The object [paymentData] of the callback route. *)
Definition paymentData (result metadata : jsval) : Js.result jsval :=
  match metadata_value metadata (lit "Amount") with
  | Throw e => Throw e
  | Ok amount =>
  match metadata_value metadata (lit "MpesaReceiptNumber") with
  | Throw e => Throw e
  | Ok mpesaReceiptNumber =>
  match metadata_value metadata (lit "PhoneNumber") with
  | Throw e => Throw e
  | Ok phoneNumber =>
  match metadata_value metadata (lit "TransactionDate") with
  | Throw e => Throw e
  | Ok transactionDate =>
  match get result (lit "MerchantRequestID") with
  | Throw e => Throw e
  | Ok merchantRequestID =>
      Ok (JObj [(lit "amount", amount);
                (lit "mpesaReceiptNumber", mpesaReceiptNumber);
                (lit "phoneNumber", phoneNumber);
                (lit "transactionDate", transactionDate);
                (lit "accountReference", merchantRequestID)])
  end end end end end.

(** [app.post('/api/mpesa/callback', ...)] on [req.body].  The route reads
    no configuration. *)
Definition callback (req_body : jsval) : M response :=
  try_catch
    (let callbackData := req_body in
     console_log (lit "Mpesa Callback Received:") callbackData ;;;
     Body <- lift (get callbackData (lit "Body")) ;;
     stkCallback <- lift (get Body (lit "stkCallback")) ;;
     success <- (if truthy stkCallback
                 then code <- lift (get stkCallback (lit "ResultCode")) ;;
                      ret (strict_eq_num code 0)
                 else ret false) ;;
     (if success : bool
      then
        let result := stkCallback in
        callbackMetadata <- lift (get result (lit "CallbackMetadata")) ;;
        item <- lift (get_opt callbackMetadata (lit "Item")) ;;
        let metadata := js_or item (JArr []) in
        data <- lift (paymentData result metadata) ;;
        console_log (lit "Payment successful:") data
      else
        resultDesc <- lift (get_opt stkCallback (lit "ResultDesc")) ;;
        console_log (lit "Payment failed:") resultDesc) ;;;
     ret (mk_response 200 (Send (lit "Callback received successfully"))))
    (fun error =>
       emit (ConsoleErrorObject (lit "Callback processing error:") error) ;;;
       ret (mk_response 500 (Send (lit "Error processing callback")))).

(* ================================================================== *)
(** ** Vocabulary of the statements *)

(** Text of ASCII characters only. *)
Definition ascii_only (s : jsstring) : Prop :=
  Forall (fun c => (c < 128)%N) s.

(** A 14-digit timestamp, [YYYYMMDDHHMMSS]. *)
Definition timestamp14 (t : jsstring) : Prop :=
  List.length t = 14%nat /\ Forall (fun c => is_digit c = true) t.


(** [v.k] where the read cannot throw, [undefined] where it would. *)
Definition field (v : jsval) (k : string) : jsval :=
  match get v (lit k) with
  | Ok x => x
  | Throw _ => JUndefined
  end.

(** The world after the server has added [evs] to the trace, the clock
    and the gateway untouched. *)
Definition after (w : world) (evs : list event) : world :=
  mk_world (clock w) (clock_reads w) (gateway w) (gateway_calls w)
           (trace w ++ evs).

(** The payloads posted to the gateway, in order. *)
Definition posted_payloads (tr : list event) : list jsval :=
  flat_map (fun ev => match ev with
                      | AxiosPost _ payload _ => [payload]
                      | _ => []
                      end) tr.

(** The network calls of a trace. *)
Definition network_calls (tr : list event) : list event :=
  filter is_network tr.

(** What the callback route reports about a payment: the console lines
    [Payment successful:] and [Payment failed:] are all it does with the
    outcome. *)
Inductive outcome :=
| Successful (data : jsval)
| Failed (reason : jsval).

Definition reported_outcomes (tr : list event) : list outcome :=
  flat_map (fun ev => match ev with
                      | ConsoleLog label v =>
                          if JsString.eqb label (lit "Payment successful:")
                          then [Successful v]
                          else if JsString.eqb label (lit "Payment failed:")
                          then [Failed v]
                          else []
                      | _ => []
                      end) tr.

(** The status line of a handler's answer. *)
Definition status_of (x : result response * world) : option Z :=
  match fst x with
  | Ok r => Some (status r)
  | Throw _ => None
  end.

(** A posted payload whose [Password] is derived from its own
    [Timestamp]. *)
Definition consistent_credentials (cfg : config) (payload : jsval) : Prop :=
  exists ts, field payload "Timestamp" = JStr ts /\
             field payload "Password" = JStr (derive_password cfg ts).

(** The parts of a callback body the route looks at. *)
Definition envelope (v : jsval) : jsval :=
  field (field v "Body") "stkCallback".

Definition result_code_is_zero (v : jsval) : bool :=
  strict_eq_num (field (envelope v) "ResultCode") 0.

Definition metadata_item (v : jsval) : jsval :=
  field (field (envelope v) "CallbackMetadata") "Item".

(** An item of the metadata list that bears the name [name]. *)
Definition named (name : jsstring) (item : jsval) : bool :=
  match item with
  | JObj props => strict_eq_str (lookup (lit "Name") props) name
  | _ => false
  end.

(** Lookup by name, as the specification words it: the [Value] of the
    first item named [name], [undefined] when there is none. *)
Definition value_by_name (name : jsstring) (items : list jsval) : jsval :=
  match find (named name) items with
  | Some item => field item "Value"
  | None => JUndefined
  end.

(** The item the scan returns when it returns. *)
Definition first_named (name : jsstring) (items : list jsval) : jsval :=
  match find (named name) items with
  | Some item => item
  | None => JUndefined
  end.

(** The scan for [name] meets [null] or [undefined] before an item named
    [name]. *)
Definition blocked (name : jsstring) (items : list jsval) : Prop :=
  exists pre x post,
    items = pre ++ x :: post /\ nullish x = true /\
    Forall (fun item => named name item = false) pre.

(** One of the four scans of [paymentData] is blocked. *)
Definition unscannable (items : list jsval) : Prop :=
  blocked (lit "Amount") items \/ blocked (lit "MpesaReceiptNumber") items \/
  blocked (lit "PhoneNumber") items \/ blocked (lit "TransactionDate") items.

(** The callback bodies on which the route throws: no body, no [Body]
    member, or a result code 0 with metadata that cannot be scanned. *)
Definition unreadable (v : jsval) : Prop :=
  nullish v = true \/
  nullish (field v "Body") = true \/
  (result_code_is_zero v = true /\
   truthy (metadata_item v) = true /\
   match metadata_item v with
   | JArr items => unscannable items
   | _ => True
   end).

Definition is_object (v : jsval) : bool :=
  match v with
  | JObj _ => true
  | _ => false
  end.

(** The expected envelope shape, following the specification's words
    (sections 3 and 6): [Body.stkCallback.{ResultCode, ResultDesc,
    MerchantRequestID, CheckoutRequestID, CallbackMetadata.Item[]}], the
    metadata being a list of name and value pairs that only a success
    carries.  A result code may be absent. *)
Definition spec_metadata_shape (callbackMetadata : jsval) : bool :=
  match callbackMetadata with
  | JUndefined => true
  | JObj _ =>
      match field callbackMetadata "Item" with
      | JArr items => forallb is_object items
      | _ => false
      end
  | _ => false
  end.

Definition spec_envelope_shape (v : jsval) : bool :=
  is_object v && is_object (field v "Body") && is_object (envelope v)
  && spec_metadata_shape (field (envelope v) "CallbackMetadata").

(** The two answers of the callback route. *)
Definition ack_received : response :=
  mk_response 200 (Send (lit "Callback received successfully")).

Definition ack_error : response :=
  mk_response 500 (Send (lit "Error processing callback")).

(** The metadata list the route scans: [Item] when truthy, else [[]]. *)
Definition scanned_metadata (v : jsval) : jsval :=
  js_or (metadata_item v) (JArr []).

(** [n] decimal digits. *)
Definition digits_of_length (n : nat) (s : jsstring) : bool :=
  Nat.eqb (List.length s) n && forallb is_digit s.


(* ================================================================== *)
(** ** Sample inputs *)

(** The sandbox credentials of the gateway's documentation. *)
Definition sandbox_config : config :=
  mk_config (Some (lit "consumer-key")) (Some (lit "consumer-secret"))
            (Some (lit "174379"))
            (Some (lit "bfb279f9aa9bdbcf158e97dd71a467cd2e0c893059b10f78e6b72ada1ed2c919"))
            (Some (lit "https://example.com/api/mpesa/callback"))
            (Some (lit "sandbox")).

(** 16 February 2016, 16:56:27 and the second after it. *)
Definition sample_date : Date := mk_Date 2016 1 16 16 56 27.
Definition next_second : Date := mk_Date 2016 1 16 16 56 28.

(** A clock that passes a second boundary between its first two reads. *)
Definition ticking_clock (n : nat) : Date :=
  match n with
  | O => sample_date
  | S _ => next_second
  end.

(** A gateway that grants the token and accepts the request. *)
Definition gateway_accepts (n : nat) : axios_reply :=
  Resolved (JObj [(lit "access_token", JStr (lit "token"));
                  (lit "CheckoutRequestID", JStr (lit "ws_CO_191220191020363925"))]).

(** The gateway's answer to a query for a correlation ID it does not know. *)
Definition not_found : js_error :=
  mk_error (JObj [(lit "errorCode", JStr (lit "500.001.1001"));
                  (lit "errorMessage", JStr (lit "The transaction does not exist"))])
           (lit "Request failed with status code 500").

(** A gateway that grants the token and then rejects the request. *)
Definition gateway_rejects (n : nat) : axios_reply :=
  match n with
  | O => Resolved (JObj [(lit "access_token", JStr (lit "token"))])
  | S _ => Rejected not_found
  end.

Definition sample_world : world :=
  mk_world ticking_clock 0 gateway_accepts 0 [].

Definition rejecting_world : world :=
  mk_world ticking_clock 0 gateway_rejects 0 [].

Definition push_request (phoneNumber amount : jsval) : jsval :=
  JObj [(lit "phoneNumber", phoneNumber); (lit "amount", amount)].

Definition metadata_entry (name : string) (value : jsval) : jsval :=
  JObj [(lit "Name", JStr (lit name)); (lit "Value", value)].

Definition callback_body (stkCallback : jsval) : jsval :=
  JObj [(lit "Body", JObj [(lit "stkCallback", stkCallback)])].

(** A successful payment of 500 with receipt ABC123; the gateway sent
    neither the payer's phone nor the transaction date. *)
Definition paid_metadata : list jsval :=
  [metadata_entry "Amount" (JNum 500);
   metadata_entry "MpesaReceiptNumber" (JStr (lit "ABC123"))].

Definition paid_callback : jsval :=
  callback_body
    (JObj [(lit "MerchantRequestID", JStr (lit "29115-34620561-1"));
           (lit "CheckoutRequestID", JStr (lit "ws_CO_191220191020363925"));
           (lit "ResultCode", JNum 0);
           (lit "ResultDesc",
             JStr (lit "The service request is processed successfully."));
           (lit "CallbackMetadata", JObj [(lit "Item", JArr paid_metadata)])]).

(** A payment the payer cancelled, with metadata attached all the same. *)
Definition cancelled_callback : jsval :=
  callback_body
    (JObj [(lit "MerchantRequestID", JStr (lit "29115-34620561-1"));
           (lit "CheckoutRequestID", JStr (lit "ws_CO_191220191020363925"));
           (lit "ResultCode", JNum 1032);
           (lit "ResultDesc", JStr (lit "Request cancelled by user"));
           (lit "CallbackMetadata", JObj [(lit "Item", JArr paid_metadata)])]).

(** A body with a [Body] member and nothing of the envelope inside. *)
Definition empty_callback : jsval := JObj [(lit "Body", JObj [])].

(* ================================================================== *)
(** ** The order route *)

Module Orders.

(** The object [order] of the route.  [order_status] is its member
    [status]. *)
Record Order := mk_Order {
  orderId : jsstring;
  customerInfo : jsval;
  items : jsval;
  total : jsval;
  deliveryAddress : jsval;
  paymentMethod : jsval;
  order_status : jsstring;
  createdAt : Date
}.

(** What the route writes to the console: [Order created:] with the
    order, or [Order creation error:] with the error. *)
Inductive console_line :=
| OrderCreated (order : Order)
| OrderCreationError (error : js_error).

(** [const { customerInfo, ... } = req.body] (V8's message). *)
Definition destructure (req_body : jsval) : result unit :=
  if nullish req_body
  then Throw (TypeError
                (lit "Cannot destructure property 'customerInfo' of 'req.body' as it is "
                 ++ type_name req_body ++ lit "."))
  else Ok tt.

(** The body of the [try] block up to [console.log]: [Date_now] is the
    value of [Date.now()], an integer number of milliseconds, and [date]
    the [new Date()] read after it. *)
Definition build (req_body : jsval) (Date_now : Z) (date : Date)
  : result Order :=
  match destructure req_body with
  | Throw e => Throw e
  | Ok _ =>
  match get req_body (lit "customerInfo") with
  | Throw e => Throw e
  | Ok customerInfo =>
  match get req_body (lit "cartItems") with
  | Throw e => Throw e
  | Ok cartItems =>
  match get req_body (lit "total") with
  | Throw e => Throw e
  | Ok total =>
  match get req_body (lit "deliveryAddress") with
  | Throw e => Throw e
  | Ok deliveryAddress =>
  match get req_body (lit "paymentMethod") with
  | Throw e => Throw e
  | Ok paymentMethod =>
      Ok (mk_Order (lit "ORD-" ++ of_int Date_now)
                   customerInfo cartItems total deliveryAddress paymentMethod
                   (if strict_eq_str paymentMethod (lit "Mpesa")
                    then lit "pending_payment" else lit "pending")
                   date)
  end end end end end end.

(** [app.post('/api/orders', ...)] on [req.body] and the two clock reads:
    the answer and the console line. *)
Definition orders (req_body : jsval) (Date_now : Z) (date : Date)
  : response * console_line :=
  match build req_body Date_now date with
  | Ok order =>
      (mk_response 200
         (Json (JObj [(lit "success", JBool true);
                      (lit "orderId", JStr (orderId order));
                      (lit "message",
                        JStr (lit "Order created successfully"))])),
       OrderCreated order)
  | Throw error =>
      (mk_response 500 (Json (json_error "Failed to create order")),
       OrderCreationError error)
  end.

End Orders.

(* ================================================================== *)
(** ** Further vocabulary *)

(** A date whose fields other than the year are in their ranges. *)
Definition valid_fields (d : Date) : Prop :=
  (0 <= getMonth d <= 11 /\ 1 <= getDate d <= 31 /\
   0 <= getHours d <= 23 /\ 0 <= getMinutes d <= 59 /\
   0 <= getSeconds d <= 59)%Z.

(** A character of the base64 alphabet, or the padding. *)
Definition base64_char (c : code_unit) : Prop :=
  In c Base64.alphabet \/ c = Base64.pad.

(** The events a handler has added to the trace of [w]. *)
Definition added (w w' : world) (evs : list event) : Prop :=
  trace w' = trace w ++ evs.

(** The payload of a push submission, as the route builds it. *)
Definition stk_payload (cfg : config) (timestamp phone : jsstring)
           (amount accountReference description : jsval) : jsval :=
  JObj [(lit "BusinessShortCode", env_value (businessShortCode cfg));
        (lit "Password", JStr (derive_password cfg timestamp));
        (lit "Timestamp", JStr timestamp);
        (lit "TransactionType", JStr (lit "CustomerPayBillOnline"));
        (lit "Amount", amount);
        (lit "PartyA", JStr phone);
        (lit "PartyB", env_value (businessShortCode cfg));
        (lit "PhoneNumber", JStr phone);
        (lit "CallBackURL", env_value (callbackURL cfg));
        (lit "AccountReference", accountReference);
        (lit "TransactionDesc", description)].

(** The [Authorization] header of the token request. *)
Definition basic_auth (cfg : config) : jsstring :=
  lit "Basic "
  ++ to_base64 (template (consumerKey cfg) ++ lit ":"
                ++ template (consumerSecret cfg)).

(** A gateway that refuses the token. *)
Definition unauthorized : js_error :=
  mk_error (JObj [(lit "errorCode", JStr (lit "400.008.01"));
                  (lit "errorMessage",
                    JStr (lit "Invalid Authentication passed"))])
           (lit "Request failed with status code 400").

Definition gateway_refuses_token (n : nat) : axios_reply :=
  Rejected unauthorized.

Definition refusing_world : world :=
  mk_world ticking_clock 0 gateway_refuses_token 0 [].

(** A gateway that grants the token and answers the request with
    [null]. *)
Definition gateway_answers_null (n : nat) : axios_reply :=
  match n with
  | O => Resolved (JObj [(lit "access_token", JStr (lit "token"))])
  | S _ => Resolved JNull
  end.

Definition null_world : world :=
  mk_world ticking_clock 0 gateway_answers_null 0 [].

Definition sample_order : jsval :=
  JObj [(lit "customerInfo", JObj [(lit "name", JStr (lit "Wanjiku"))]);
        (lit "cartItems", JArr [JStr (lit "Pork ribs")]);
        (lit "total", JNum 1200);
        (lit "deliveryAddress", JStr (lit "Moi Avenue"));
        (lit "paymentMethod", JStr (lit "Mpesa"))].

(** [sample_world] after one read of the clock. *)
Definition later_world : world :=
  mk_world ticking_clock 1 gateway_accepts 0 [].

(** A gateway that answers [null] to everything. *)
Definition gateway_null (n : nat) : axios_reply := Resolved JNull.

Definition no_token_world : world :=
  mk_world ticking_clock 0 gateway_null 0 [].

(** A result code 0 with a metadata list that holds [null] only, and one
    whose [CallbackMetadata] is a string. *)
Definition null_item_callback : jsval :=
  callback_body
    (JObj [(lit "ResultCode", JNum 0);
           (lit "CallbackMetadata", JObj [(lit "Item", JArr [JNull])])]).

Definition text_metadata_callback : jsval :=
  callback_body
    (JObj [(lit "ResultCode", JNum 0);
           (lit "CallbackMetadata", JStr (lit "x"))]).

(* ================================================================== *)
(** * Properties *)

(** ** Test vectors *)

Example base64_foobar : to_base64 (lit "foobar") = lit "Zm9vYmFy".
Proof. reflexivity. Qed.

Example base64_fooba : to_base64 (lit "fooba") = lit "Zm9vYmE=".
Proof. reflexivity. Qed.

Example base64_foob : to_base64 (lit "foob") = lit "Zm9vYg==".
Proof. reflexivity. Qed.

(** U+20AC, a surrogate pair (U+1F600) and a surrogate without partner. *)
Example base64_euro : to_base64 [8364%N] = lit "4oKs".
Proof. reflexivity. Qed.

Example base64_pair : to_base64 [55357%N; 56832%N] = lit "8J+YgA==".
Proof. reflexivity. Qed.

Example base64_lone : to_base64 [55357%N; 65%N] = lit "77+9QQ==".
Proof. reflexivity. Qed.

Example timestamp_sample : format_timestamp sample_date = lit "20160216165627".
Proof. reflexivity. Qed.

(** Single digits are padded, and a year outside 1000..9999 does not give
    fourteen digits. *)
Example timestamp_padded :
  format_timestamp (mk_Date 2026 0 5 7 8 9) = lit "20260105070809".
Proof. reflexivity. Qed.

Example timestamp_early_year :
  format_timestamp (mk_Date 999 0 1 0 0 0) = lit "9990101000000".
Proof. reflexivity. Qed.

(** ** Induction in steps of two and three *)

Lemma list_ind_pairs (A : Type) (P : list A -> Prop) :
  P [] ->
  (forall a, P [a]) ->
  (forall a b l, P l -> P (b :: l) -> P (a :: b :: l)) ->
  forall l, P l.
Proof.
  intros H0 H1 H2 l.
  assert (H : P l /\ forall a, P (a :: l)).
  { induction l as [|b l [IH IH']]; split; auto. }
  apply H.
Qed.

Lemma list_ind_triples (A : Type) (P : list A -> Prop) :
  P [] ->
  (forall a, P [a]) ->
  (forall a b, P [a; b]) ->
  (forall a b c l, P l -> P (a :: b :: c :: l)) ->
  forall l, P l.
Proof.
  intros H0 H1 H2 H3 l.
  assert (H : P l /\ (forall a, P (a :: l)) /\ forall a b, P (a :: b :: l)).
  { induction l as [|c l (IH & IH1 & IH2)]; repeat split; auto. }
  apply H.
Qed.

(** ** Checking a property of every number below a bound *)

Lemma forall_below (P : N -> bool) (k : nat) :
  forallb P (map N.of_nat (seq 0 k)) = true ->
  forall i, (i < N.of_nat k)%N -> P i = true.
Proof.
  intros H i Hi.
  rewrite forallb_forall in H. apply H.
  apply in_map_iff. exists (N.to_nat i). split.
  - apply N2Nat.id.
  - apply in_seq. lia.
Qed.

(** ** Base64 is injective *)

Lemma digit_inj (i j : N) :
  (i < 64)%N -> (j < 64)%N -> Base64.digit i = Base64.digit j -> i = j.
Proof.
  intros Hi Hj H.
  pose (P := fun i => forallb (fun j => negb (N.eqb (Base64.digit i) (Base64.digit j))
                                        || N.eqb i j)
                              (map N.of_nat (seq 0 64))).
  assert (HP : P i = true).
  { apply (@forall_below P 64); [vm_compute; reflexivity | exact Hi]. }
  unfold P in HP.
  pose proof (@forall_below _ 64 HP j Hj) as Hij. cbv beta in Hij.
  rewrite H, N.eqb_refl in Hij. simpl in Hij.
  now apply N.eqb_eq.
Qed.

Lemma digit_not_pad (i : N) : (i < 64)%N -> Base64.digit i <> Base64.pad.
Proof.
  intros Hi H.
  pose (P := fun i => negb (N.eqb (Base64.digit i) Base64.pad)).
  assert (HP : P i = true).
  { apply (@forall_below P 64); [vm_compute; reflexivity | exact Hi]. }
  unfold P in HP. rewrite H, N.eqb_refl in HP. discriminate.
Qed.

Lemma byte_to_N_inj (a b : Byte.byte) : Byte.to_N a = Byte.to_N b -> a = b.
Proof.
  intros H.
  pose proof (Byte.of_to_N a) as Ha. rewrite H, Byte.of_to_N in Ha.
  now inversion Ha.
Qed.

Lemma byte_to_N_lt (a : Byte.byte) : (Byte.to_N a < 256)%N.
Proof. pose proof (Byte.to_N_bounded a). lia. Qed.

(** The facts [lia] needs about the quotients and remainders of a byte. *)
Ltac divmod_facts n :=
  pose proof (N.div_mod n 4); pose proof (N.mod_lt n 4);
  pose proof (N.le_0_l (n mod 4)); pose proof (N.le_0_l (n / 4));
  pose proof (N.div_mod n 16); pose proof (N.mod_lt n 16);
  pose proof (N.le_0_l (n mod 16)); pose proof (N.le_0_l (n / 16));
  pose proof (N.div_mod n 64); pose proof (N.mod_lt n 64);
  pose proof (N.le_0_l (n mod 64)); pose proof (N.le_0_l (n / 64)).

Ltac byte_facts a :=
  let n := fresh "n" in
  let B := fresh "B" in
  let E := fresh "E" in
  pose proof (byte_to_N_lt a) as B;
  remember (Byte.to_N a) as n eqn:E;
  divmod_facts n.

Lemma cons4_inv (A : Type) (a b c d a' b' c' d' : A) (l l' : list A) :
  a :: b :: c :: d :: l = a' :: b' :: c' :: d' :: l' ->
  a = a' /\ b = b' /\ c = c' /\ d = d' /\ l = l'.
Proof. intros H. inversion H. auto. Qed.

Ltac sextet H := first [ apply digit_inj in H; [ | lia | lia ] | clear H ].
Ltac not_pad H :=
  exfalso;
  first [ revert H; apply digit_not_pad; lia
        | symmetry in H; revert H; apply digit_not_pad; lia ].

Lemma base64_encode_inj (a b : list Byte.byte) :
  Base64.encode a = Base64.encode b -> a = b.
Proof.
  revert b. pattern a. apply list_ind_triples; clear a;
    [ | intros x | intros x y | intros x y z a IH ];
    intros [|x' [|y' [|z' b]]]; cbn [Base64.encode]; intros H;
    try discriminate; try reflexivity.
  all: apply cons4_inv in H; destruct H as (H1 & H2 & H3 & H4 & H).
  all: byte_facts x; byte_facts x'.
  all: try byte_facts y; try byte_facts y'.
  all: try byte_facts z; try byte_facts z'.
  all: try (not_pad H3); try (not_pad H4).
  all: sextet H1; sextet H2; sextet H3; sextet H4.
  - f_equal. apply byte_to_N_inj. lia.
  - f_equal; [ | f_equal ]; apply byte_to_N_inj; lia.
  - f_equal; [ | f_equal; [ | f_equal ] ];
      [ apply byte_to_N_inj; lia .. | now apply IH ].
Qed.

(** ** UTF-8 encoding and ASCII text *)

Lemma ascii_not_surrogate (c : code_unit) :
  (c < 128)%N ->
  Utf8.is_high_surrogate c = false /\ Utf8.is_low_surrogate c = false.
Proof.
  intros H. unfold Utf8.is_high_surrogate, Utf8.is_low_surrogate.
  split; apply andb_false_iff; left; apply N.leb_gt; lia.
Qed.

Lemma utf8_encode_ascii (t : jsstring) :
  ascii_only t -> Utf8.encode t = map Utf8.byte_of_N t.
Proof.
  induction 1 as [|c t Hc Ht IH]; [reflexivity|].
  destruct (ascii_not_surrogate Hc) as [Hh Hl].
  cbn [Utf8.encode map]. rewrite Hh, Hl, IH.
  unfold Utf8.encode_code_point.
  apply N.ltb_lt in Hc. now rewrite Hc.
Qed.

(** Appending ASCII text appends its bytes: no character of the text can
    complete a surrogate pair left open by the prefix. *)
Lemma utf8_encode_app_ascii (p t : jsstring) :
  ascii_only t -> Utf8.encode (p ++ t) = Utf8.encode p ++ Utf8.encode t.
Proof.
  intros Ht. pattern p. apply list_ind_pairs; clear p.
  - reflexivity.
  - intros c. cbn [app Utf8.encode].
    destruct (Utf8.is_high_surrogate c) eqn:Hh.
    + destruct Ht as [|d t Hd Ht]; [reflexivity|].
      destruct (ascii_not_surrogate Hd) as [_ Hl]. now rewrite Hl.
    + destruct (Utf8.is_low_surrogate c); now rewrite app_nil_r.
  - intros c d p IH IH'.
    change ((c :: d :: p) ++ t) with (c :: (d :: p) ++ t).
    cbn [Utf8.encode] in *. cbn [app] in *.
    destruct (Utf8.is_high_surrogate c).
    + destruct (Utf8.is_low_surrogate d).
      * now rewrite IH, app_assoc.
      * now rewrite IH', app_assoc.
    + destruct (Utf8.is_low_surrogate c); now rewrite IH', app_assoc.
Qed.

Lemma byte_of_N_to_N (n : N) : Byte.to_N (Utf8.byte_of_N n) = (n mod 256)%N.
Proof.
  unfold Utf8.byte_of_N.
  destruct (Byte.of_N (n mod 256)) as [b|] eqn:E.
  - now apply Byte.to_of_N.
  - apply Byte.of_N_None_iff in E.
    pose proof (N.mod_lt n 256). lia.
Qed.

Lemma utf8_encode_ascii_inj (s t : jsstring) :
  ascii_only s -> ascii_only t -> Utf8.encode s = Utf8.encode t -> s = t.
Proof.
  intros Hs Ht. rewrite !utf8_encode_ascii by assumption.
  revert t Ht. induction Hs as [|c s Hc Hs IH]; intros t Ht H;
    destruct Ht as [|d t Hd Ht]; try discriminate; [reflexivity|].
  cbn [map] in H. injection H as H1 H2.
  f_equal; [ | now apply IH ].
  apply (f_equal Byte.to_N) in H1. rewrite !byte_of_N_to_N in H1.
  rewrite !N.mod_small in H1 by lia. exact H1.
Qed.

(** [Buffer.from(p + t).toString('base64')] determines an ASCII suffix [t]
    once the prefix [p] is fixed. *)
Lemma to_base64_suffix_inj (p s t : jsstring) :
  ascii_only s -> ascii_only t ->
  to_base64 (p ++ s) = to_base64 (p ++ t) -> s = t.
Proof.
  intros Hs Ht H. unfold to_base64 in H.
  apply base64_encode_inj in H.
  rewrite !utf8_encode_app_ascii in H by assumption.
  apply app_inv_head in H.
  now apply utf8_encode_ascii_inj.
Qed.

(** ** Phone normalization *)

Lemma slice_1_cons (c : code_unit) (r : jsstring) : slice (c :: r) 1 = r.
Proof.
  unfold slice. cbn [Z.ltb Z.compare List.length].
  rewrite Z.min_l by lia. reflexivity.
Qed.

Lemma startsWith_app (p r : jsstring) : startsWith (p ++ r) p = true.
Proof.
  induction p as [|c p IH]; [reflexivity|].
  cbn [app startsWith]. now rewrite N.eqb_refl, IH.
Qed.

Lemma startsWith_inv (s p : jsstring) :
  startsWith s p = true -> exists r, s = p ++ r.
Proof.
  revert s. induction p as [|c p IH]; intros s H.
  - now exists s.
  - destruct s as [|d s]; [discriminate|].
    cbn [startsWith] in H. apply andb_true_iff in H as [Hd Hs].
    apply N.eqb_eq in Hd. subst d.
    destruct (IH _ Hs) as [r ->]. now exists r.
Qed.

(** C2: a leading [0] is replaced with [254]; otherwise a leading [+254]
    loses its [+]; otherwise the input is unchanged.  The three examples of
    the specification follow. *)
Theorem C2_phone_normalization (s : jsstring) :
  (forall r, s = lit "0" ++ r -> formattedPhone s = lit "254" ++ r) /\
  (forall r, s = lit "+254" ++ r -> formattedPhone s = lit "254" ++ r) /\
  ((forall r, s <> lit "0" ++ r) -> (forall r, s <> lit "+254" ++ r) ->
   formattedPhone s = s) /\
  formattedPhone (lit "0712345678") = lit "254712345678" /\
  formattedPhone (lit "+254712345678") = lit "254712345678" /\
  formattedPhone (lit "254712345678") = lit "254712345678".
Proof.
  repeat split; try reflexivity.
  - intros r ->. unfold formattedPhone.
    rewrite (startsWith_app (lit "0") r).
    change (lit "0" ++ r) with (48%N :: r). now rewrite slice_1_cons.
  - intros r ->. unfold formattedPhone.
    change (startsWith (lit "+254" ++ r) (lit "0")) with false.
    rewrite (startsWith_app (lit "+254") r).
    change (lit "+254" ++ r) with (43%N :: lit "254" ++ r).
    now rewrite slice_1_cons.
  - intros H0 H1. unfold formattedPhone.
    destruct (startsWith s (lit "0")) eqn:E0.
    { apply startsWith_inv in E0 as [r Hr]. now apply H0 in Hr. }
    destruct (startsWith s (lit "+254")) eqn:E1.
    { apply startsWith_inv in E1 as [r Hr]. now apply H1 in Hr. }
    reflexivity.
Qed.

Lemma C2_phone_normalization_witness :
  formattedPhone (lit "0712345678") = lit "254712345678" /\
  formattedPhone (lit "+254712345678") = lit "254712345678" /\
  formattedPhone (lit "254712345678") = lit "254712345678".
Proof.
  split; [ | split ].
  - apply (proj1 (C2_phone_normalization (lit "0712345678"))
             (lit "712345678")).
    reflexivity.
  - apply (proj1 (proj2 (C2_phone_normalization (lit "+254712345678")))
             (lit "712345678")).
    reflexivity.
  - apply (proj1 (proj2 (proj2 (C2_phone_normalization (lit "254712345678"))))).
    + intros r H. discriminate H.
    + intros r H. discriminate H.
Defined.

(** ** Timestamps and passwords *)

Lemma forall_between (P : Z -> bool) (lo hi : Z) :
  forallb P (map (fun n => lo + Z.of_nat n)%Z
                 (seq 0 (Z.to_nat (hi - lo)))) = true ->
  forall z, (lo <= z < hi)%Z -> P z = true.
Proof.
  intros H z Hz.
  rewrite forallb_forall in H. apply H.
  apply in_map_iff. exists (Z.to_nat (z - lo)). split.
  - lia.
  - apply in_seq. lia.
Qed.

Lemma digits_of_length_spec (n : nat) (s : jsstring) :
  digits_of_length n s = true ->
  List.length s = n /\ Forall (fun c => is_digit c = true) s.
Proof.
  unfold digits_of_length. intros H.
  apply andb_true_iff in H as [Hn Hd]. split.
  - now apply Nat.eqb_eq.
  - apply Forall_forall. now apply forallb_forall.
Qed.


Lemma two_digits_spec (z : Z) :
  (0 <= z <= 99)%Z -> digits_of_length 2 (two_digits z) = true.
Proof.
  intros H.
  apply (@forall_between (fun z => digits_of_length 2 (two_digits z)) 0 100);
    [ vm_compute; reflexivity | lia ].
Qed.



Lemma timestamp14_ascii (t : jsstring) : timestamp14 t -> ascii_only t.
Proof.
  intros [_ H]. unfold ascii_only.
  eapply Forall_impl; [ | exact H ].
  intros c Hc. unfold is_digit in Hc.
  apply andb_true_iff in Hc as [_ Hc]. apply N.leb_le in Hc. lia.
Qed.

Lemma derive_password_inj (cfg : config) (ts1 ts2 : jsstring) :
  timestamp14 ts1 -> timestamp14 ts2 ->
  derive_password cfg ts1 = derive_password cfg ts2 -> ts1 = ts2.
Proof.
  intros H1 H2 Heq.
  unfold derive_password in Heq. rewrite !app_assoc in Heq.
  apply to_base64_suffix_inj in Heq; auto using timestamp14_ascii.
Qed.

(** C5: the password is the base64 encoding of shortcode, passkey and
    timestamp concatenated; [generatePassword] returns it with the timestamp
    it has read from the clock; it is a function of these three strings
    alone; and two different 14-digit timestamps never give the same
    password. *)
Theorem C5_password_derivation (cfg : config) :
  (forall sc pk ts,
      businessShortCode cfg = Some sc -> passKey cfg = Some pk ->
      derive_password cfg ts = Base64.encode (Utf8.encode (sc ++ pk ++ ts))) /\
  (forall w,
      let ts := format_timestamp (clock w (clock_reads w)) in
      fst (generatePassword cfg w) = Ok (derive_password cfg ts, ts)) /\
  (forall cfg' ts,
      businessShortCode cfg' = businessShortCode cfg ->
      passKey cfg' = passKey cfg ->
      derive_password cfg' ts = derive_password cfg ts) /\
  (forall ts1 ts2,
      timestamp14 ts1 -> timestamp14 ts2 -> ts1 <> ts2 ->
      derive_password cfg ts1 <> derive_password cfg ts2).
Proof.
  repeat split.
  - intros sc pk ts Hsc Hpk. unfold derive_password.
    now rewrite Hsc, Hpk.
  - intros cfg' ts Hsc Hpk. unfold derive_password.
    now rewrite Hsc, Hpk.
  - intros ts1 ts2 H1 H2 Hne Heq. apply Hne.
    now apply (@derive_password_inj cfg).
Qed.

Lemma C5_password_derivation_witness :
  derive_password sandbox_config (format_timestamp sample_date)
  = lit "MTc0Mzc5YmZiMjc5ZjlhYTliZGJjZjE1OGU5N2RkNzFhNDY3Y2QyZTBjODkzMDU5YjEwZjc4ZTZiNzJhZGExZWQyYzkxOTIwMTYwMjE2MTY1NjI3" /\
  timestamp14 (format_timestamp sample_date) /\
  timestamp14 (format_timestamp next_second) /\
  derive_password sandbox_config (format_timestamp sample_date)
  <> derive_password sandbox_config (format_timestamp next_second).
Proof.
  assert (T1 : timestamp14 (format_timestamp sample_date)).
  { apply (@digits_of_length_spec 14). reflexivity. }
  assert (T2 : timestamp14 (format_timestamp next_second)).
  { apply (@digits_of_length_spec 14). reflexivity. }
  split; [ | split; [ exact T1 | split; [ exact T2 | ] ] ].
  - rewrite (proj1 (C5_password_derivation sandbox_config)
               (lit "174379")
               (lit "bfb279f9aa9bdbcf158e97dd71a467cd2e0c893059b10f78e6b72ada1ed2c919")
               (format_timestamp sample_date) eq_refl eq_refl).
    reflexivity.
  - apply (proj2 (proj2 (proj2 (C5_password_derivation sandbox_config)))).
    + exact T1.
    + exact T2.
    + discriminate.
Defined.

(** ** Running the handlers *)

(** Unfolds the monad and the handlers, leaving strings and property
    reads folded. *)
Ltac run :=
  cbv beta iota zeta delta
    [stkpush payment_status callback try_catch bind ret throw lift emit
     settle axios_get axios_post console_log console_error new_Date
     generateAccessToken generatePassword generateTimestamp after];
  cbn [fst snd clock clock_reads gateway gateway_calls trace status body].

(** Case analysis on the innermost undecided test. *)
Ltac branch :=
  match goal with
  | |- context [match ?x with _ => _ end] =>
      lazymatch x with
      | context [match _ with _ => _ end] => fail
      | _ => destruct x eqn:?
      end
  end; run.

(** ** Push submission: validation *)

Lemma stkpush_rejects_falsy (cfg : config) (body : jsval) (w : world) :
  nullish body = false ->
  truthy (field body "phoneNumber") = false \/
  truthy (field body "amount") = false ->
  stkpush cfg body w
  = (Ok (mk_response 400
           (Json (json_error "Phone number and amount are required"))), w).
Proof.
  intros Hb H. unfold field in H.
  run. unfold destructure. rewrite Hb.
  destruct body; try discriminate; cbn [get] in *; run.
  all: destruct H as [H|H]; rewrite H; cbn [negb orb];
    rewrite ?orb_true_r; reflexivity.
Qed.

Lemma stkpush_accepts_truthy (cfg : config) (body : jsval) (w : world) :
  truthy (field body "phoneNumber") = true ->
  truthy (field body "amount") = true ->
  status_of (stkpush cfg body w) = Some 200%Z \/
  status_of (stkpush cfg body w) = Some 500%Z.
Proof.
  intros Hp Ha. unfold field, status_of in *.
  run. unfold destructure.
  destruct body; cbn [get truthy nullish] in *; try discriminate; run.
  rewrite Hp, Ha; cbn [negb orb].
  repeat branch; cbn [status]; auto.
Qed.

Lemma stkpush_no_body (cfg : config) (body : jsval) (w : world) :
  nullish body = true ->
  status_of (stkpush cfg body w) = Some 500%Z /\
  network_calls (trace (snd (stkpush cfg body w))) = network_calls (trace w).
Proof.
  intros H. run. unfold destructure. rewrite H. run.
  split; [ reflexivity | ].
  unfold network_calls. rewrite filter_app. cbn. apply app_nil_r.
Qed.

(** C1, as the code has it.  A request with a body ([req.body] neither
    [null] nor [undefined]) whose [phoneNumber] or [amount] is absent, or
    present but falsy ([null], [false], [0], [NaN], the empty string), is
    answered 400 with the world untouched, so before any network call;
    every other request with a body passes validation, whatever the sign of
    its amount, and is answered 200 or 500.  A request without a body never
    reaches the check: it is answered 500, also before any network call. *)
Theorem C1_validation (cfg : config) (body : jsval) (w : world) :
  (nullish body = false ->
   (truthy (field body "phoneNumber") = false \/
    truthy (field body "amount") = false ->
    stkpush cfg body w
    = (Ok (mk_response 400
             (Json (json_error "Phone number and amount are required"))),
       w)) /\
   (truthy (field body "phoneNumber") = true ->
    truthy (field body "amount") = true ->
    status_of (stkpush cfg body w) = Some 200%Z \/
    status_of (stkpush cfg body w) = Some 500%Z)) /\
  (nullish body = true ->
   status_of (stkpush cfg body w) = Some 500%Z /\
   network_calls (trace (snd (stkpush cfg body w)))
   = network_calls (trace w)).
Proof.
  split.
  - intros Hb. split.
    + now apply stkpush_rejects_falsy.
    + now apply stkpush_accepts_truthy.
  - now apply stkpush_no_body.
Qed.

Lemma C1_validation_witness :
  stkpush sandbox_config
          (JObj [(lit "phoneNumber", JStr (lit "0712345678"))]) sample_world
  = (Ok (mk_response 400
           (Json (json_error "Phone number and amount are required"))),
     sample_world) /\
  stkpush sandbox_config
          (push_request (JStr (lit "0712345678")) (JNum 0)) sample_world
  = (Ok (mk_response 400
           (Json (json_error "Phone number and amount are required"))),
     sample_world) /\
  (status_of (stkpush sandbox_config
                (push_request (JStr (lit "0712345678")) (JNum (-5)))
                sample_world) = Some 200%Z \/
   status_of (stkpush sandbox_config
                (push_request (JStr (lit "0712345678")) (JNum (-5)))
                sample_world) = Some 500%Z) /\
  status_of (stkpush sandbox_config JUndefined sample_world) = Some 500%Z /\
  status_of (stkpush sandbox_config JNull sample_world) = Some 500%Z.
Proof.
  split; [ | split; [ | split; [ | split ] ] ].
  - apply (proj1 (proj1 (@C1_validation sandbox_config
                           (JObj [(lit "phoneNumber",
                                    JStr (lit "0712345678"))])
                           sample_world) eq_refl)).
    right. reflexivity.
  - apply (proj1 (proj1 (@C1_validation sandbox_config
                           (push_request (JStr (lit "0712345678")) (JNum 0))
                           sample_world) eq_refl)).
    right. reflexivity.
  - apply (proj2 (proj1 (@C1_validation sandbox_config
                           (push_request (JStr (lit "0712345678"))
                                         (JNum (-5)))
                           sample_world) eq_refl)); reflexivity.
  - apply (proj2 (@C1_validation sandbox_config JUndefined sample_world)
                 eq_refl).
  - apply (proj2 (@C1_validation sandbox_config JNull sample_world)
                 eq_refl).
Defined.

(** C1, as stated, fails: an amount of -5 is not positive, yet the request
    passes validation, the token is fetched, the request is submitted and
    the answer is 200. *)
Lemma C1_negative_amount_accepted :
  PrimFloat.ltb 0 (-5) = false /\
  status_of (stkpush sandbox_config
               (push_request (JStr (lit "0712345678")) (JNum (-5)))
               sample_world) = Some 200%Z /\
  List.length
    (network_calls
       (trace (snd (stkpush sandbox_config
                      (push_request (JStr (lit "0712345678")) (JNum (-5)))
                      sample_world)))) = 2%nat.
Proof. vm_compute. repeat split. Qed.

(** ** Push submission: a phone number that is not a string *)

Lemma stkpush_non_string_phone (cfg : config) (body : jsval) (w : world) :
  truthy (field body "phoneNumber") = true ->
  truthy (field body "amount") = true ->
  (forall s, field body "phoneNumber" <> JStr s) ->
  stkpush cfg body w
  = (Ok (mk_response 500
           (Json (JObj [(lit "error", JStr (lit "Failed to initiate STK Push"));
                        (lit "details",
                          JStr (lit "phoneNumber.startsWith is not a function"))]))),
     after w [ConsoleError (lit "STK Push error:")
                (JStr (lit "phoneNumber.startsWith is not a function"))]).
Proof.
  intros Hp Ha Hs. unfold field in *.
  run. unfold destructure.
  destruct body; cbn [get truthy nullish] in *; try discriminate; run.
  rewrite Hp, Ha; cbn [negb orb].
  destruct (lookup (lit "phoneNumber") props) eqn:E;
    try reflexivity.
  now destruct (Hs s).
Qed.

Lemma network_calls_after_console (w : world) (label : jsstring) (v : jsval) :
  network_calls (trace (after w [ConsoleError label v]))
  = network_calls (trace w).
Proof.
  unfold network_calls, after. cbn [trace].
  rewrite filter_app. cbn. apply app_nil_r.
Qed.

(** C10: a request whose [phoneNumber] is the JSON number 712345678 passes
    the presence check, the normalization throws, and the answer is the
    500 of the catch block, [{error, details}], after no network call at
    all. *)
Theorem C10_non_string_phone_is_500 :
  exists body,
    field body "phoneNumber" = JNum 712345678 /\
    truthy (field body "phoneNumber") = true /\
    forall cfg w,
      let answer := stkpush cfg body w in
      fst answer
      = Ok (mk_response 500
              (Json (JObj [(lit "error",
                             JStr (lit "Failed to initiate STK Push"));
                           (lit "details",
                             JStr (lit "phoneNumber.startsWith is not a function"))]))) /\
      status_of answer <> Some 400%Z /\
      network_calls (trace (snd answer)) = network_calls (trace w).
Proof.
  exists (push_request (JNum 712345678) (JNum 100)).
  split; [ reflexivity | split; [ reflexivity | ] ].
  intros cfg w answer. subst answer.
  rewrite stkpush_non_string_phone; try reflexivity.
  - repeat split.
    + discriminate.
    + apply network_calls_after_console.
  - intros s H. discriminate H.
Qed.

(** ** Upstream failures *)

(** Whatever the gateway answers, a failed status query is reported with
    the same fixed body. *)
Lemma payment_status_answers (cfg : config) (id : jsstring) (w : world) :
  (exists data, fst (payment_status cfg id w)
                = Ok (mk_response 200 (Json data))) \/
  fst (payment_status cfg id w)
  = Ok (mk_response 500 (Json (json_error "Failed to check payment status"))).
Proof.
  run. repeat branch; eauto.
Qed.

(** A failed push submission is reported with the upstream payload, or
    with the error's message when the error carries none. *)
Lemma stkpush_forwards_rejection (cfg : config) (body : jsval) (w : world)
      (s : jsstring) (data token : jsval) (e : js_error) :
  field body "phoneNumber" = JStr s -> s <> [] ->
  truthy (field body "amount") = true ->
  gateway w (gateway_calls w) = Resolved data ->
  get data (lit "access_token") = Ok token ->
  gateway w (S (gateway_calls w)) = Rejected e ->
  fst (stkpush cfg body w)
  = Ok (mk_response 500
          (Json (JObj [(lit "error", JStr (lit "Failed to initiate STK Push"));
                       (lit "details", error_details e)]))).
Proof.
  intros Hp Hs Ha Hd Ht He. unfold field in *.
  run. unfold destructure.
  destruct body; cbn [get truthy nullish] in *; try discriminate; run.
  rewrite Hp, Ha. destruct s as [|c s]; [ congruence | ].
  cbn [truthy negb orb format_phone]. rewrite Hd. run.
  rewrite Ht. run. rewrite He. reflexivity.
Qed.

(** C6, at a query for an unknown correlation ID which the gateway rejects
    with its error payload: the status route answers its fixed local error,
    without the payload or the message, although the push route forwards
    the same rejection as [details]. *)
Theorem C6_status_query_drops_upstream_details :
  gateway rejecting_world 1 = Rejected not_found /\
  fst (payment_status sandbox_config (lit "ws_CO_unknown") rejecting_world)
  = Ok (mk_response 500
          (Json (json_error "Failed to check payment status"))) /\
  fst (stkpush sandbox_config
         (push_request (JStr (lit "0712345678")) (JNum 100)) rejecting_world)
  = Ok (mk_response 500
          (Json (JObj [(lit "error", JStr (lit "Failed to initiate STK Push"));
                       (lit "details", response_data not_found)]))).
Proof. repeat split. Qed.

(** ** The timestamp of a request and the one inside its password *)

Lemma posted_payloads_app (a b : list event) :
  posted_payloads (a ++ b) = posted_payloads a ++ posted_payloads b.
Proof. apply flat_map_app. Qed.

Ltac payloads :=
  repeat rewrite posted_payloads_app;
  cbn [posted_payloads flat_map app];
  rewrite ?app_nil_r.

Lemma payment_status_payload (cfg : config) (id : jsstring) (w : world) :
  exists new,
    posted_payloads (trace (snd (payment_status cfg id w)))
    = posted_payloads (trace w) ++ new /\
    Forall (fun payload =>
              field payload "Password"
              = JStr (derive_password cfg
                        (format_timestamp (clock w (clock_reads w)))) /\
              field payload "Timestamp"
              = JStr (format_timestamp (clock w (S (clock_reads w)))))
           new.
Proof.
  run. repeat branch; payloads.
  all: first [ exists []; rewrite app_nil_r; split; [ reflexivity | constructor ]
             | eexists [_]; split;
               [ reflexivity | repeat constructor ] ].
Qed.

Lemma stkpush_payload (cfg : config) (body : jsval) (w : world) :
  exists new,
    posted_payloads (trace (snd (stkpush cfg body w)))
    = posted_payloads (trace w) ++ new /\
    Forall (consistent_credentials cfg) new.
Proof.
  run. repeat branch; payloads.
  all: first [ exists []; rewrite app_nil_r; split; [ reflexivity | constructor ]
             | eexists [_]; split;
               [ reflexivity
               | repeat constructor; eexists; split; reflexivity ] ].
Qed.

Lemma payment_status_posts (cfg : config) (id : jsstring) (w : world)
      (data : jsval) :
  gateway w (gateway_calls w) = Resolved data -> nullish data = false ->
  posted_payloads (trace (snd (payment_status cfg id w)))
  = posted_payloads (trace w)
    ++ [JObj [(lit "BusinessShortCode",
                env_value (businessShortCode cfg));
              (lit "Password",
                JStr (derive_password cfg
                        (format_timestamp (clock w (clock_reads w)))));
              (lit "Timestamp",
                JStr (format_timestamp (clock w (S (clock_reads w)))));
              (lit "CheckoutRequestID", JStr id)]].
Proof.
  intros Hd Hn. run. rewrite Hd. run.
  destruct data; try discriminate; cbn [get]; run.
  all: repeat branch; payloads; reflexivity.
Qed.

Lemma stkpush_posts (cfg : config) (body : jsval) (w : world)
      (s : jsstring) (data : jsval) :
  field body "phoneNumber" = JStr s -> s <> [] ->
  truthy (field body "amount") = true ->
  gateway w (gateway_calls w) = Resolved data -> nullish data = false ->
  posted_payloads (trace (snd (stkpush cfg body w)))
  = posted_payloads (trace w)
    ++ [stk_payload cfg (format_timestamp (clock w (clock_reads w)))
          (formattedPhone s) (field body "amount")
          (js_or (field body "accountReference") (JStr (lit "Food Order")))
          (js_or (field body "description")
                 (JStr (lit "Payment for food order")))].
Proof.
  intros Hp Hs Ha Hd Hn. unfold field in *.
  run. unfold destructure.
  destruct body; cbn [get truthy nullish] in *; try discriminate; run.
  rewrite Hp, Ha. destruct s as [|c s]; [ congruence | ].
  cbn [truthy negb orb format_phone]. rewrite Hd. run.
  destruct data; try discriminate; cbn [get]; run.
  all: repeat branch; payloads; reflexivity.
Qed.

(** C9: the status query reads the clock twice, once inside
    [generatePassword] and once for [Timestamp]: whenever the token is
    granted it posts one payload whose [Password] comes from the first read
    and whose [Timestamp] comes from the second; with a clock that passes a
    second boundary in between, the posted [Timestamp] is not the one the
    posted [Password] was derived from.  The push submission reads the
    clock once: whenever the request is valid and the token is granted it
    posts one payload whose [Timestamp] is that read and whose [Password]
    is derived from that same timestamp, and it never posts anything
    else. *)
Theorem C9_status_query_reads_clock_twice :
  (forall cfg id w,
      exists new,
        posted_payloads (trace (snd (payment_status cfg id w)))
        = posted_payloads (trace w) ++ new /\
        Forall (fun payload =>
                  field payload "Password"
                  = JStr (derive_password cfg
                            (format_timestamp (clock w (clock_reads w)))) /\
                  field payload "Timestamp"
                  = JStr (format_timestamp (clock w (S (clock_reads w)))))
               new) /\
  (exists payload,
      posted_payloads
        (trace (snd (payment_status sandbox_config
                       (lit "ws_CO_191220191020363925") sample_world)))
      = [payload] /\
      field payload "Password"
      = JStr (derive_password sandbox_config (lit "20160216165627")) /\
      field payload "Timestamp" = JStr (lit "20160216165628") /\
      ~ consistent_credentials sandbox_config payload) /\
  (forall cfg body w,
      exists new,
        posted_payloads (trace (snd (stkpush cfg body w)))
        = posted_payloads (trace w) ++ new /\
        Forall (consistent_credentials cfg) new) /\
  (forall cfg id w data,
      gateway w (gateway_calls w) = Resolved data -> nullish data = false ->
      exists payload,
        posted_payloads (trace (snd (payment_status cfg id w)))
        = posted_payloads (trace w) ++ [payload] /\
        field payload "Password"
        = JStr (derive_password cfg
                  (format_timestamp (clock w (clock_reads w)))) /\
        field payload "Timestamp"
        = JStr (format_timestamp (clock w (S (clock_reads w))))) /\
  (forall cfg body w s data,
      field body "phoneNumber" = JStr s -> s <> [] ->
      truthy (field body "amount") = true ->
      gateway w (gateway_calls w) = Resolved data -> nullish data = false ->
      exists payload,
        posted_payloads (trace (snd (stkpush cfg body w)))
        = posted_payloads (trace w) ++ [payload] /\
        field payload "Timestamp"
        = JStr (format_timestamp (clock w (clock_reads w))) /\
        field payload "Password"
        = JStr (derive_password cfg
                  (format_timestamp (clock w (clock_reads w))))) /\
  (exists payload,
      posted_payloads
        (trace (snd (stkpush sandbox_config
                       (push_request (JStr (lit "0712345678")) (JNum 100))
                       sample_world)))
      = [payload] /\
      field payload "Timestamp" = JStr (lit "20160216165627") /\
      field payload "Password"
      = JStr (derive_password sandbox_config (lit "20160216165627")) /\
      consistent_credentials sandbox_config payload).
Proof.
  split; [ exact payment_status_payload | ].
  split.
  { eexists. split; [ reflexivity | ].
    split; [ reflexivity | split; [ reflexivity | ] ].
    intros (ts & Hts & Hpw).
    change (JStr (lit "20160216165628") = JStr ts) in Hts.
    injection Hts as <-.
    vm_compute in Hpw. discriminate Hpw. }
  split; [ exact stkpush_payload | ].
  split.
  { intros cfg id w data Hd Hn. eexists. split.
    - now apply (@payment_status_posts cfg id w data).
    - split; reflexivity. }
  split.
  { intros cfg body w s data Hp Hs Ha Hd Hn. eexists. split.
    - now apply (@stkpush_posts cfg body w s data).
    - split; reflexivity. }
  eexists. split; [ reflexivity | ].
  split; [ reflexivity | split; [ reflexivity | ] ].
  eexists. split; reflexivity.
Qed.

Lemma C9_status_query_reads_clock_twice_witness :
  (exists payload,
      posted_payloads
        (trace (snd (payment_status sandbox_config
                       (lit "ws_CO_191220191020363925") sample_world)))
      = [payload] /\
      field payload "Password"
      = JStr (derive_password sandbox_config
                (format_timestamp sample_date)) /\
      field payload "Timestamp" = JStr (format_timestamp next_second)) /\
  (exists payload,
      posted_payloads
        (trace (snd (stkpush sandbox_config
                       (push_request (JStr (lit "0712345678")) (JNum 100))
                       sample_world)))
      = [payload] /\
      field payload "Timestamp" = JStr (format_timestamp sample_date) /\
      field payload "Password"
      = JStr (derive_password sandbox_config
                (format_timestamp sample_date))).
Proof.
  split.
  - apply (proj1 (proj2 (proj2 (proj2
             C9_status_query_reads_clock_twice)))
             sandbox_config (lit "ws_CO_191220191020363925") sample_world
             _ eq_refl eq_refl).
  - apply (proj1 (proj2 (proj2 (proj2 (proj2
             C9_status_query_reads_clock_twice))))
             sandbox_config
             (push_request (JStr (lit "0712345678")) (JNum 100))
             sample_world (lit "0712345678") _
             eq_refl ltac:(discriminate) eq_refl eq_refl eq_refl).
Defined.

(** ** The callback route, case by case *)

Lemma callback_no_body (v : jsval) (w : world) (e : js_error) :
  get v (lit "Body") = Throw e ->
  callback v w
  = (Ok ack_error,
     after w [ConsoleLog (lit "Mpesa Callback Received:") v;
              ConsoleErrorObject (lit "Callback processing error:") e]).
Proof.
  intros H. run. rewrite H. run. now rewrite <- app_assoc.
Qed.

Lemma callback_no_Body (v : jsval) (w : world) (e : js_error) :
  nullish v = false ->
  get (field v "Body") (lit "stkCallback") = Throw e ->
  callback v w
  = (Ok ack_error,
     after w [ConsoleLog (lit "Mpesa Callback Received:") v;
              ConsoleErrorObject (lit "Callback processing error:") e]).
Proof.
  intros Hv H. unfold field in H. run.
  destruct (get v (lit "Body")) eqn:E.
  - run. rewrite H. run. now rewrite <- app_assoc.
  - destruct v; discriminate.
Qed.

Lemma callback_failure (v : jsval) (w : world) :
  nullish v = false -> nullish (field v "Body") = false ->
  result_code_is_zero v = false ->
  callback v w
  = (Ok ack_received,
     after w [ConsoleLog (lit "Mpesa Callback Received:") v;
              ConsoleLog (lit "Payment failed:")
                         (field (envelope v) "ResultDesc")]).
Proof.
  unfold result_code_is_zero, envelope, field.
  intros Hv HB Hc. run.
  destruct (get v (lit "Body")) as [B|] eqn:EB; [ | destruct v; discriminate ].
  run.
  destruct (get B (lit "stkCallback")) as [stk|] eqn:Es;
    [ | destruct B; discriminate ].
  run.
  destruct stk; cbn [truthy get get_opt nullish] in *; run;
    try rewrite Hc; run; repeat branch;
    cbn [app]; rewrite <- ?app_assoc; reflexivity.
Qed.

Lemma callback_success (v : jsval) (w : world) :
  nullish v = false -> nullish (field v "Body") = false ->
  result_code_is_zero v = true ->
  callback v w
  = match paymentData (envelope v) (scanned_metadata v) with
    | Ok data =>
        (Ok ack_received,
         after w [ConsoleLog (lit "Mpesa Callback Received:") v;
                  ConsoleLog (lit "Payment successful:") data])
    | Throw e =>
        (Ok ack_error,
         after w [ConsoleLog (lit "Mpesa Callback Received:") v;
                  ConsoleErrorObject (lit "Callback processing error:") e])
    end.
Proof.
  unfold result_code_is_zero, scanned_metadata, metadata_item, envelope, field.
  intros Hv HB Hc. run.
  destruct (get v (lit "Body")) as [B|] eqn:EB; [ | destruct v; discriminate ].
  run.
  destruct (get B (lit "stkCallback")) as [stk|] eqn:Es;
    [ | destruct B; discriminate ].
  run.
  destruct stk; cbn [truthy get get_opt nullish strict_eq_num] in *;
    try discriminate.
  run. rewrite Hc. run.
  destruct (lookup (lit "CallbackMetadata") props) eqn:Ecm;
    cbn [get_opt nullish get]; run.
  all: match goal with
       | |- context [paymentData ?a ?b] => destruct (paymentData a b)
       end; run; now rewrite <- app_assoc.
Qed.

(** ** Scanning the metadata *)

Lemma get_opt_field (v : jsval) (k : string) :
  get_opt v (lit k) = Ok (field v k).
Proof. unfold get_opt, field. destruct v; reflexivity. Qed.

Lemma get_field (v : jsval) (k : string) :
  nullish v = false -> get v (lit k) = Ok (field v k).
Proof. unfold field. destruct v; try discriminate; reflexivity. Qed.

Lemma named_get (name : jsstring) (item : jsval) :
  nullish item = false ->
  exists n, get item (lit "Name") = Ok n /\
            strict_eq_str n name = named name item.
Proof.
  destruct item; try discriminate; intros _; eexists; split;
    reflexivity.
Qed.

Lemma named_not_nullish (name : jsstring) (item : jsval) :
  named name item = true -> nullish item = false.
Proof. destruct item; try discriminate; reflexivity. Qed.

Lemma blocked_cons (name : jsstring) (item : jsval) (items : list jsval) :
  nullish item = false -> named name item = false ->
  blocked name (item :: items) <-> blocked name items.
Proof.
  intros Hn Hf. split.
  - intros (pre & x & post & E & Hx & Hpre).
    destruct pre as [|p pre]; cbn [app] in E; injection E as -> ->.
    + congruence.
    + exists pre, x, post. inversion Hpre; subst. auto.
  - intros (pre & x & post & -> & Hx & Hpre).
    exists (item :: pre), x, post. auto.
Qed.

Lemma find_by_name_spec (name : jsstring) (items : list jsval) :
  (blocked name items /\ exists e, find_by_name name items = Throw e) \/
  (~ blocked name items /\
   find_by_name name items = Ok (first_named name items)).
Proof.
  induction items as [|item items IH].
  - right. split; [ | reflexivity ].
    intros (pre & x & post & E & _). now destruct pre.
  - destruct (nullish item) eqn:Hn.
    + left. split.
      * exists [], item, items. auto.
      * destruct item; try discriminate; cbn; eauto.
    + destruct (named_get name item Hn) as (n & Hget & Hnamed).
      unfold first_named. cbn [find_by_name find].
      rewrite Hget, Hnamed.
      destruct (named name item) eqn:Hf.
      * right. split; [ | reflexivity ].
        intros (pre & x & post & E & Hx & Hpre).
        destruct pre as [|p pre]; cbn [app] in E; injection E as -> ->.
        -- congruence.
        -- inversion Hpre; subst. congruence.
      * rewrite (@blocked_cons name item items Hn Hf). exact IH.
Qed.

Lemma metadata_value_spec (name : jsstring) (items : list jsval) :
  (blocked name items /\
   exists e, metadata_value (JArr items) name = Throw e) \/
  (~ blocked name items /\
   metadata_value (JArr items) name = Ok (value_by_name name items)).
Proof.
  unfold metadata_value.
  destruct (find_by_name_spec name items) as [(Hb & e & He)|(Hb & Hf)].
  - left. rewrite He. eauto.
  - right. rewrite Hf, (@get_opt_field _ "Value"%string). split; [ exact Hb | ].
    unfold value_by_name, first_named.
    destruct (find (named name) items); reflexivity.
Qed.

(** [paymentData] over a list: it throws exactly when a scan is blocked,
    and otherwise holds the four values found by name and the merchant
    request ID. *)
Lemma paymentData_spec (stk : jsval) (items : list jsval) :
  nullish stk = false ->
  (unscannable items /\ exists e, paymentData stk (JArr items) = Throw e) \/
  (~ unscannable items /\
   paymentData stk (JArr items)
   = Ok (JObj [(lit "amount", value_by_name (lit "Amount") items);
               (lit "mpesaReceiptNumber",
                 value_by_name (lit "MpesaReceiptNumber") items);
               (lit "phoneNumber", value_by_name (lit "PhoneNumber") items);
               (lit "transactionDate",
                 value_by_name (lit "TransactionDate") items);
               (lit "accountReference", field stk "MerchantRequestID")])).
Proof.
  intros Hs. unfold paymentData, unscannable.
  destruct (metadata_value_spec (lit "Amount") items)
    as [(B1 & e1 & ->)|(B1 & ->)];
    [ left; split; [ tauto | eexists; reflexivity ] | ].
  destruct (metadata_value_spec (lit "MpesaReceiptNumber") items)
    as [(B2 & e2 & ->)|(B2 & ->)];
    [ left; split; [ tauto | eexists; reflexivity ] | ].
  destruct (metadata_value_spec (lit "PhoneNumber") items)
    as [(B3 & e3 & ->)|(B3 & ->)];
    [ left; split; [ tauto | eexists; reflexivity ] | ].
  destruct (metadata_value_spec (lit "TransactionDate") items)
    as [(B4 & e4 & ->)|(B4 & ->)];
    [ left; split; [ tauto | eexists; reflexivity ] | ].
  right. rewrite (@get_field stk "MerchantRequestID"%string Hs).
  split; [ tauto | reflexivity ].
Qed.

Lemma paymentData_not_array (stk metadata : jsval) :
  (forall items, metadata <> JArr items) ->
  exists e, paymentData stk metadata = Throw e.
Proof.
  intros H. unfold paymentData, metadata_value.
  destruct metadata; eauto. now destruct (H items).
Qed.

Lemma not_blocked (name : jsstring) (items : list jsval) :
  Forall (fun item => nullish item = false) items -> ~ blocked name items.
Proof.
  intros H (pre & x & post & -> & Hx & _).
  apply Forall_app in H as [_ H]. inversion H; subst. congruence.
Qed.

Lemma scannable (items : list jsval) :
  Forall (fun item => nullish item = false) items -> ~ unscannable items.
Proof.
  intros H [B|[B|[B|B]]]; revert B; now apply not_blocked.
Qed.

Lemma result_code_is_zero_object (v : jsval) :
  result_code_is_zero v = true ->
  nullish v = false /\ nullish (field v "Body") = false /\
  nullish (envelope v) = false.
Proof.
  unfold result_code_is_zero, envelope.
  destruct v; try discriminate.
  destruct (field (JObj props) "Body"); try discriminate.
  destruct (field (JObj props0) "stkCallback"); try discriminate.
  auto.
Qed.

(** ** The callback route: acknowledgment and outcome *)

Lemma get_nullish (v : jsval) (k : jsstring) :
  nullish v = true -> exists e, get v k = Throw e.
Proof. destruct v; try discriminate; cbn; eauto. Qed.

Lemma scanned_metadata_cases (v : jsval) :
  (truthy (metadata_item v) = false /\ scanned_metadata v = JArr []) \/
  (truthy (metadata_item v) = true /\ scanned_metadata v = metadata_item v).
Proof.
  unfold scanned_metadata, js_or.
  destruct (truthy (metadata_item v)); auto.
Qed.

Lemma unscannable_nil : ~ unscannable [].
Proof. apply scannable. constructor. Qed.

(** Every delivery is answered by one of the two acknowledgments, after
    events that depend on the body alone; the answer is the error exactly
    on the unreadable bodies. *)
Ltac answer H :=
  eexists _, _; split; [ | split; [ exact H | ] ]; [ discriminate | ].

Lemma callback_answer (v : jsval) :
  exists r evs,
    evs <> [] /\
    (forall w, callback v w = (Ok r, after w evs)) /\
    ((unreadable v /\ r = ack_error) \/ (~ unreadable v /\ r = ack_received)).
Proof.
  destruct (nullish v) eqn:Hv.
  { destruct (@get_nullish v (lit "Body") Hv) as [e He].
    answer (fun w => @callback_no_body v w e He).
    left. split; [ now left | reflexivity ]. }
  destruct (nullish (field v "Body")) eqn:HB.
  { destruct (@get_nullish _ (lit "stkCallback") HB) as [e He].
    answer (fun w => @callback_no_Body v w e Hv He).
    left. split; [ right; now left | reflexivity ]. }
  assert (Hun : unreadable v ->
                result_code_is_zero v = true /\
                truthy (metadata_item v) = true /\
                match metadata_item v with
                | JArr items => unscannable items
                | _ => True
                end).
  { intros [H|[H|H]]; [ congruence | congruence | exact H ]. }
  destruct (result_code_is_zero v) eqn:Hc.
  2:{ answer (fun w => @callback_failure v w Hv HB Hc).
      right. split; [ | reflexivity ].
      intros H. apply Hun in H. now destruct H. }
  destruct (result_code_is_zero_object v Hc) as (_ & _ & Hs).
  pose proof (fun w => @callback_success v w Hv HB Hc) as Hcb.
  destruct (paymentData (envelope v) (scanned_metadata v))
    as [data|e] eqn:Hp; answer Hcb.
  - (* the scan succeeded: the body is readable *)
    right. split; [ | reflexivity ].
    intros H. apply Hun in H. destruct H as (_ & Ht & U).
    destruct (scanned_metadata_cases v) as [[Ht' _]|[_ Hm]];
      [ congruence | ].
    rewrite Hm in Hp.
    destruct (metadata_item v) as [ | | | | |items| ] eqn:Ei;
      try discriminate Hp.
    destruct (@paymentData_spec (envelope v) items Hs)
      as [(_ & e & He)|(U' & _)]; [ congruence | now apply U' ].
  - (* the scan threw: the body is unreadable *)
    left. split; [ | reflexivity ].
    right. right. split; [ exact Hc | ].
    destruct (scanned_metadata_cases v) as [[_ Hm]|[Ht Hm]].
    + rewrite Hm in Hp.
      destruct (@paymentData_spec (envelope v) [] Hs)
        as [(U & _)|(_ & He)]; [ now destruct unscannable_nil | congruence ].
    + split; [ exact Ht | ].
      rewrite Hm in Hp.
      destruct (metadata_item v) as [ | | | | |items| ] eqn:Ei; auto.
      destruct (@paymentData_spec (envelope v) items Hs)
        as [(U & _)|(_ & He)]; [ exact U | congruence ].
Qed.

Lemma shape_readable (v : jsval) :
  spec_envelope_shape v = true -> ~ unreadable v.
Proof.
  unfold spec_envelope_shape. intros H.
  apply andb_true_iff in H as [H Hm]. apply andb_true_iff in H as [H Hs].
  apply andb_true_iff in H as [Hv HB].
  intros [U|[U|(_ & Ht & U)]].
  - destruct v; discriminate.
  - destruct (field v "Body"); discriminate.
  - unfold metadata_item in *. unfold spec_metadata_shape in Hm.
    destruct (field (envelope v) "CallbackMetadata") eqn:Ecm;
      try discriminate.
    destruct (field (JObj props) "Item") as [ | | | | |items| ];
      try discriminate.
    revert U. apply scannable.
    apply Forall_forall. intros item Hin.
    rewrite forallb_forall in Hm. apply Hm in Hin.
    destruct item; try discriminate; reflexivity.
Qed.

Lemma ack_distinct : ack_received <> ack_error.
Proof. discriminate. Qed.

(** C3: a body whose [Body] member can be read is reported as failed,
    with [ResultDesc] as the reason and whatever its metadata, exactly when
    its [ResultCode] is not the number 0 (absent included); it is reported
    as successful only when the code is 0, and then always unless the
    metadata cannot be scanned. *)
Theorem C3_outcome_by_result_code (v : jsval) (w : world) :
  nullish v = false -> nullish (field v "Body") = false ->
  exists evs,
    snd (callback v w) = after w evs /\
    (result_code_is_zero v = false ->
     fst (callback v w) = Ok ack_received /\
     reported_outcomes evs = [Failed (field (envelope v) "ResultDesc")]) /\
    (result_code_is_zero v = true ->
     (forall reason, ~ In (Failed reason) (reported_outcomes evs)) /\
     (~ unreadable v ->
      fst (callback v w) = Ok ack_received /\
      exists data, reported_outcomes evs = [Successful data])) /\
    ((exists data, In (Successful data) (reported_outcomes evs)) ->
     result_code_is_zero v = true).
Proof.
  intros Hv HB.
  destruct (result_code_is_zero v) eqn:Hc.
  - rewrite callback_success by assumption.
    destruct (paymentData (envelope v) (scanned_metadata v))
      as [data|e] eqn:Hp; eexists; (split; [ reflexivity | ]).
    + split; [ discriminate | split; [ | reflexivity ] ].
      intros _. split.
      * intros reason [H|[]]. discriminate H.
      * intros _. split; [ reflexivity | ]. now exists data.
    + split; [ discriminate | split; [ | reflexivity ] ].
      intros _. split.
      * intros reason [].
      * intros Hr. exfalso.
        destruct (callback_answer v)
          as (r & evs & _ & Hcb & [[U _]|[_ ->]]); [ now apply Hr | ].
        specialize (Hcb w).
        rewrite callback_success, Hp in Hcb by assumption.
        now injection Hcb.
  - rewrite callback_failure by assumption.
    eexists. split; [ reflexivity | ].
    split; [ | split; [ discriminate | ] ].
    + intros _. split; reflexivity.
    + intros (data & [H|[]]). discriminate H.
Qed.

Lemma C3_outcome_by_result_code_witness :
  reported_outcomes (trace (snd (callback cancelled_callback sample_world)))
  = [Failed (JStr (lit "Request cancelled by user"))] /\
  reported_outcomes (trace (snd (callback empty_callback sample_world)))
  = [Failed JUndefined] /\
  exists data,
    reported_outcomes (trace (snd (callback paid_callback sample_world)))
    = [Successful data].
Proof.
  split; [ | split ].
  - destruct (@C3_outcome_by_result_code cancelled_callback sample_world
                eq_refl eq_refl) as (evs & Hw & Hfail & _).
    destruct (Hfail eq_refl) as [_ Hr].
    rewrite Hw. cbn [after trace sample_world app]. exact Hr.
  - destruct (@C3_outcome_by_result_code empty_callback sample_world
                eq_refl eq_refl) as (evs & Hw & Hfail & _).
    destruct (Hfail eq_refl) as [_ Hr].
    rewrite Hw. cbn [after trace sample_world app]. exact Hr.
  - destruct (@C3_outcome_by_result_code paid_callback sample_world
                eq_refl eq_refl) as (evs & Hw & _ & Hok & _).
    destruct (Hok eq_refl) as [_ Hs].
    destruct Hs as [_ [data Hr]].
    + apply shape_readable. reflexivity.
    + exists data. rewrite Hw. cbn [after trace sample_world app]. exact Hr.
Defined.

(** C4, as the code has it: every delivery is acknowledged with 200 or
    with 500; a body of the expected envelope shape gets 200 whatever the
    payment outcome; 500 is the answer exactly to the bodies on which the
    route throws ([unreadable]: no body, no [Body] member, or a result code
    0 with a truthy [Item] that is not a list or is a list in which, for
    one of the four names searched, [null] or [undefined] stands with no
    item of that name before it); and 200 is the answer to every other
    body. *)
Theorem C4_callback_acknowledgment (v : jsval) (w : world) :
  (fst (callback v w) = Ok ack_received \/
   fst (callback v w) = Ok ack_error) /\
  (spec_envelope_shape v = true -> fst (callback v w) = Ok ack_received) /\
  (fst (callback v w) = Ok ack_error <-> unreadable v) /\
  (fst (callback v w) = Ok ack_received <-> ~ unreadable v).
Proof.
  destruct (callback_answer v) as (r & evs & _ & Hcb & Hr).
  rewrite Hcb. cbn [fst].
  destruct Hr as [[U ->]|[U ->]].
  - split; [ now right | split; [ | split ] ].
    + intros H. now apply shape_readable in H.
    + tauto.
    + split; [ | tauto ].
      intros H. injection H as H. discriminate H.
  - split; [ now left | split; [ | split ] ].
    + reflexivity.
    + split; [ | tauto ].
      intros H. injection H as H. discriminate H.
    + tauto.
Qed.

Lemma C4_callback_acknowledgment_witness :
  fst (callback paid_callback sample_world) = Ok ack_received /\
  fst (callback cancelled_callback sample_world) = Ok ack_received /\
  fst (callback null_item_callback sample_world) = Ok ack_error /\
  (spec_envelope_shape text_metadata_callback = false /\
   fst (callback text_metadata_callback sample_world) = Ok ack_received).
Proof.
  split; [ | split; [ | split; [ | split; [ reflexivity | ] ] ] ].
  - apply (proj1 (proj2 (C4_callback_acknowledgment paid_callback
                           sample_world))).
    reflexivity.
  - apply (proj1 (proj2 (C4_callback_acknowledgment cancelled_callback
                           sample_world))).
    reflexivity.
  - apply (proj1 (proj2 (proj2 (C4_callback_acknowledgment
                                  null_item_callback sample_world)))).
    right. right. split; [ reflexivity | split; [ reflexivity | ] ].
    left. exists [], JNull, []. repeat split. constructor.
  - apply (proj2 (proj2 (proj2 (C4_callback_acknowledgment
                                  text_metadata_callback sample_world)))).
    intros [H|[H|(_ & H & _)]]; discriminate H.
Defined.

(** C4, as stated, fails: a body with a [Body] member and no [stkCallback]
    inside is not of the expected envelope shape, yet it is acknowledged
    with 200. *)
Lemma C4_body_without_envelope_acknowledged :
  spec_envelope_shape empty_callback = false /\
  fst (callback empty_callback sample_world) = Ok ack_received.
Proof. split; reflexivity. Qed.

(** ** The reconciled payment data *)

Lemma value_by_name_absent (name : jsstring) (items : list jsval) :
  Forall (fun item => named name item = false) items ->
  value_by_name name items = JUndefined.
Proof.
  intros H. unfold value_by_name.
  destruct (find (named name) items) as [item|] eqn:E; [ | reflexivity ].
  apply find_some in E as [Hin Hn].
  rewrite Forall_forall in H. apply H in Hin. congruence.
Qed.

Lemma value_by_name_first (name : jsstring) (pre post : list jsval)
      (item : jsval) :
  Forall (fun item => named name item = false) pre ->
  named name item = true ->
  value_by_name name (pre ++ item :: post) = field item "Value".
Proof.
  intros Hpre Hn. unfold value_by_name.
  induction Hpre as [|p pre Hp Hpre IH]; cbn [app find].
  - now rewrite Hn.
  - now rewrite Hp.
Qed.

(** C7: for a callback with result code 0 whose metadata is a list
    without [null] entries (or is absent, the list then being empty), the
    route reports [paymentData] with [accountReference] equal to the
    envelope's [MerchantRequestID] and with the four other fields looked up
    by name: the value of the first item of that name wherever it stands,
    [undefined] when no item bears the name; the answer is 200 either
    way. *)
Theorem C7_payment_data (v : jsval) (w : world) (items : list jsval) :
  result_code_is_zero v = true ->
  scanned_metadata v = JArr items ->
  Forall (fun item => nullish item = false) items ->
  callback v w
  = (Ok ack_received,
     after w
       [ConsoleLog (lit "Mpesa Callback Received:") v;
        ConsoleLog (lit "Payment successful:")
          (JObj [(lit "amount", value_by_name (lit "Amount") items);
                 (lit "mpesaReceiptNumber",
                   value_by_name (lit "MpesaReceiptNumber") items);
                 (lit "phoneNumber", value_by_name (lit "PhoneNumber") items);
                 (lit "transactionDate",
                   value_by_name (lit "TransactionDate") items);
                 (lit "accountReference",
                   field (envelope v) "MerchantRequestID")])]) /\
  (forall name,
      Forall (fun item => named name item = false) items ->
      value_by_name name items = JUndefined) /\
  (forall name pre item post,
      items = pre ++ item :: post ->
      Forall (fun item => named name item = false) pre ->
      named name item = true ->
      value_by_name name items = field item "Value").
Proof.
  intros Hc Hm Hitems.
  destruct (result_code_is_zero_object v Hc) as (Hv & HB & Hs).
  split; [ | split ].
  - rewrite callback_success by assumption. rewrite Hm.
    destruct (@paymentData_spec (envelope v) items Hs)
      as [(U & _)|(_ & ->)]; [ | reflexivity ].
    now apply scannable in U.
  - intros name. apply value_by_name_absent.
  - intros name pre item post ->. apply value_by_name_first.
Qed.

Lemma C7_payment_data_witness :
  reported_outcomes (trace (snd (callback paid_callback sample_world)))
  = [Successful
       (JObj [(lit "amount", JNum 500);
              (lit "mpesaReceiptNumber", JStr (lit "ABC123"));
              (lit "phoneNumber", JUndefined);
              (lit "transactionDate", JUndefined);
              (lit "accountReference", JStr (lit "29115-34620561-1"))])].
Proof.
  assert (H : Forall (fun item => nullish item = false) paid_metadata)
    by (repeat constructor).
  rewrite (proj1 (@C7_payment_data paid_callback sample_world paid_metadata
                    eq_refl eq_refl H)).
  reflexivity.
Defined.

(** ** Repeated deliveries *)

Lemma reported_outcomes_app (a b : list event) :
  reported_outcomes (a ++ b) = reported_outcomes a ++ reported_outcomes b.
Proof. apply flat_map_app. Qed.

(** C8, as the code has it: the callback route keeps no payment state and
    recognises no repeated delivery.  A second delivery of the same body
    gets the same acknowledgment and adds the same events as the first, the
    reported outcome among them, so that the trace reports it twice; the
    clock, the gateway and every earlier event are left as they were. *)
Theorem C8_every_delivery_is_processed (v : jsval) (w : world) :
  let first := callback v w in
  let second := callback v (snd first) in
  fst second = fst first /\
  exists evs,
    evs <> [] /\
    snd first = after w evs /\
    snd second = after (snd first) evs /\
    reported_outcomes (trace (snd second))
    = reported_outcomes (trace w)
      ++ reported_outcomes evs ++ reported_outcomes evs.
Proof.
  destruct (callback_answer v) as (r & evs & Hne & Hcb & _).
  cbv zeta. rewrite (Hcb w). cbn [fst snd]. rewrite Hcb. cbn [fst snd].
  split; [ reflexivity | ].
  exists evs. repeat split; auto.
  cbn [after trace]. now rewrite !reported_outcomes_app, app_assoc.
Qed.

(** C8, as stated, fails: after two deliveries of the same successful
    callback the outcome has been reported twice, and the second delivery
    has changed the trace. *)
Lemma C8_second_delivery_reports_again :
  List.length
    (reported_outcomes
       (trace (snd (callback paid_callback sample_world)))) = 1%nat /\
  List.length
    (reported_outcomes
       (trace (snd (callback paid_callback
                      (snd (callback paid_callback sample_world)))))) = 2%nat /\
  trace (snd (callback paid_callback
                (snd (callback paid_callback sample_world))))
  <> trace (snd (callback paid_callback sample_world)).
Proof.
  split; [ reflexivity | split; [ reflexivity | ] ].
  intros H. apply (f_equal (@List.length event)) in H.
  vm_compute in H. discriminate H.
Qed.

(* ================================================================== *)
(** * Further properties of the server *)

(** ** Phone normalization, again *)

(** X1: normalizing twice is normalizing once, because a normalized
    number never starts with [0] nor with [+254]. *)
Theorem X1_formattedPhone_idempotent (s : jsstring) :
  formattedPhone (formattedPhone s) = formattedPhone s /\
  startsWith (formattedPhone s) (lit "0") = false /\
  startsWith (formattedPhone s) (lit "+254") = false.
Proof.
  assert (H : startsWith (formattedPhone s) (lit "0") = false /\
              startsWith (formattedPhone s) (lit "+254") = false).
  { unfold formattedPhone.
    destruct (startsWith s (lit "0")) eqn:E0; [ split; reflexivity | ].
    destruct (startsWith s (lit "+254")) eqn:E1; [ | now split ].
    apply startsWith_inv in E1 as [r ->].
    change (lit "+254" ++ r) with (43%N :: lit "254" ++ r).
    rewrite slice_1_cons. split; reflexivity. }
  split; [ | exact H ].
  destruct H as [H0 H1].
  unfold formattedPhone at 1. now rewrite H0, H1.
Qed.

(** ** Decimal digits *)

Lemma uint_units_inj (a b : Decimal.uint) :
  uint_units a = uint_units b -> a = b.
Proof.
  revert b. induction a; intros b H; destruct b; cbn [uint_units] in H;
    try discriminate; try reflexivity;
    injection H as H; f_equal; now apply IHa.
Qed.

Lemma uint_units_digits (a : Decimal.uint) :
  Forall (fun c => is_digit c = true) (uint_units a).
Proof. induction a; cbn [uint_units]; constructor; auto. Qed.

Lemma uint_units_nonempty (p : positive) : uint_units (Pos.to_uint p) <> [].
Proof.
  intros H. apply (DecimalPos.Unsigned.to_uint_nonnil p).
  apply uint_units_inj. exact H.
Qed.

(** The decimal text of an integer determines it. *)
Lemma of_int_inj (a b : Z) : of_int a = of_int b -> a = b.
Proof.
  assert (Hz : forall p, uint_units (Pos.to_uint p) <> [48%N]).
  { intros p H. apply (DecimalPos.Unsigned.to_uint_nonzero p).
    apply uint_units_inj. exact H. }
  assert (Hm : forall p q, uint_units (Pos.to_uint p)
                           <> 45%N :: uint_units (Pos.to_uint q)).
  { intros p q H. pose proof (uint_units_digits (Pos.to_uint p)) as D.
    rewrite H in D. inversion D; subst. discriminate. }
  assert (Hi : forall p q, uint_units (Pos.to_uint p)
                           = uint_units (Pos.to_uint q) -> p = q).
  { intros p q H. apply DecimalPos.Unsigned.to_uint_inj.
    now apply uint_units_inj. }
  destruct a as [|p|p], b as [|q|q]; cbn [of_int]; intros H;
    try reflexivity.
  - symmetry in H. now apply Hz in H.
  - discriminate H.
  - now apply Hz in H.
  - f_equal. now apply Hi.
  - now apply Hm in H.
  - discriminate H.
  - symmetry in H. now apply Hm in H.
  - injection H as H. f_equal. now apply Hi.
Qed.

Lemma of_int_ascii (z : Z) : ascii_only (of_int z).
Proof.
  assert (D : forall u, ascii_only (uint_units u)).
  { intros u. unfold ascii_only.
    eapply Forall_impl; [ | apply uint_units_digits ].
    intros c Hc. unfold is_digit in Hc.
    apply andb_true_iff in Hc as [_ Hc]. apply N.leb_le in Hc. lia. }
  destruct z; cbn [of_int].
  - repeat constructor.
  - apply D.
  - constructor; [ reflexivity | apply D ].
Qed.

Lemma two_digits_inj (a b : Z) :
  (0 <= a <= 99)%Z -> (0 <= b <= 99)%Z ->
  two_digits a = two_digits b -> a = b.
Proof.
  intros Ha Hb H.
  pose (P := fun a =>
               forallb (fun b => negb (JsString.eqb (two_digits a)
                                                    (two_digits b))
                                 || Z.eqb a b)
                       (map (fun n => 0 + Z.of_nat n)%Z
                            (seq 0 (Z.to_nat (100 - 0))))).
  assert (HP : P a = true).
  { apply (@forall_between P 0 100); [ vm_compute; reflexivity | lia ]. }
  unfold P in HP.
  pose proof (@forall_between
                (fun b => negb (JsString.eqb (two_digits a) (two_digits b))
                          || Z.eqb a b) 0 100 HP b) as Hab.
  specialize (Hab ltac:(lia)).
  cbv beta in Hab. rewrite H in Hab.
  assert (R : forall s, JsString.eqb s s = true).
  { induction s as [|c s IH]; [ reflexivity | ].
    cbn [JsString.eqb]. now rewrite N.eqb_refl. }
  rewrite R in Hab. cbn [negb orb] in Hab. now apply Z.eqb_eq.
Qed.

Lemma app_inv_length (A : Type) (a b c d : list A) :
  a ++ b = c ++ d -> List.length b = List.length d -> a = c /\ b = d.
Proof.
  revert c. induction a as [|x a IH]; intros [|y c] H L; cbn [app] in H.
  - now split.
  - exfalso. apply (f_equal (@List.length A)) in H.
    cbn [List.length] in H. rewrite length_app in H. lia.
  - exfalso. apply (f_equal (@List.length A)) in H.
    cbn [List.length] in H. rewrite length_app in H. lia.
  - injection H as -> H. destruct (IH c H L) as [-> ->]. now split.
Qed.

Lemma two_digits_length (z : Z) :
  (0 <= z <= 99)%Z -> List.length (two_digits z) = 2%nat.
Proof.
  intros H. now apply (@digits_of_length_spec 2), two_digits_spec.
Qed.

Lemma app_inv_length_head (A : Type) (a b c d : list A) :
  a ++ b = c ++ d -> List.length a = List.length c -> a = c /\ b = d.
Proof.
  intros H L. apply app_inv_length; [ exact H | ].
  apply (f_equal (@List.length A)) in H. rewrite !length_app in H. lia.
Qed.

Lemma two_digits_ascii (z : Z) : (0 <= z <= 99)%Z -> ascii_only (two_digits z).
Proof.
  intros H. apply two_digits_spec in H.
  apply (@digits_of_length_spec 2) in H as [_ H]. unfold ascii_only.
  eapply Forall_impl; [ | exact H ].
  intros c Hc. unfold is_digit in Hc.
  apply andb_true_iff in Hc as [_ Hc]. apply N.leb_le in Hc. lia.
Qed.

(** ** Timestamps *)


Lemma format_timestamp_ascii (d : Date) :
  valid_fields d -> ascii_only (format_timestamp d).
Proof.
  intros (Hm & Hd & Hh & Hmi & Hs). unfold format_timestamp.
  unfold ascii_only. rewrite !Forall_app.
  repeat split; first [ apply of_int_ascii | apply two_digits_ascii; lia ].
Qed.

Lemma format_timestamp_inj (d1 d2 : Date) :
  valid_fields d1 -> valid_fields d2 ->
  format_timestamp d1 = format_timestamp d2 -> d1 = d2.
Proof.
  intros (Hm1 & Hd1 & Hh1 & Hmi1 & Hs1) (Hm2 & Hd2 & Hh2 & Hmi2 & Hs2) H.
  unfold format_timestamp in H.
  apply app_inv_length in H as [Hy H];
    [ | rewrite !length_app, !two_digits_length by lia; reflexivity ].
  apply app_inv_length_head in H as [Hm H];
    [ | rewrite !two_digits_length by lia; reflexivity ].
  apply app_inv_length_head in H as [Hd H];
    [ | rewrite !two_digits_length by lia; reflexivity ].
  apply app_inv_length_head in H as [Hh H];
    [ | rewrite !two_digits_length by lia; reflexivity ].
  apply app_inv_length_head in H as [Hmi Hs];
    [ | rewrite !two_digits_length by lia; reflexivity ].
  apply of_int_inj in Hy.
  apply two_digits_inj in Hm, Hd, Hh, Hmi, Hs; try lia.
  destruct d1, d2; cbn in *. f_equal; lia.
Qed.

Lemma sample_dates_valid : valid_fields sample_date /\ valid_fields next_second.
Proof. unfold valid_fields, sample_date, next_second; cbn; lia. Qed.



(** X3: the timestamp determines the date it was formatted from: two
    dates with fields in range that differ in any field, the year
    included, have different timestamps. *)
Theorem X3_timestamp_determines_date (d1 d2 : Date) :
  valid_fields d1 -> valid_fields d2 ->
  format_timestamp d1 = format_timestamp d2 -> d1 = d2.
Proof. apply format_timestamp_inj. Qed.

Lemma X3_timestamp_determines_date_witness :
  valid_fields sample_date /\ valid_fields next_second /\
  format_timestamp sample_date <> format_timestamp next_second.
Proof.
  destruct sample_dates_valid as [V1 V2].
  split; [ exact V1 | split; [ exact V2 | ] ].
  intros H.
  pose proof (X3_timestamp_determines_date V1 V2 H) as E.
  discriminate E.
Defined.

(** X4: [generatePassword] never gives the same password at two
    different dates, whatever the configuration: worlds whose clocks read
    different dates get different passwords. *)
Theorem X4_password_changes_with_date (cfg : config) (w1 w2 : world) :
  valid_fields (clock w1 (clock_reads w1)) ->
  valid_fields (clock w2 (clock_reads w2)) ->
  clock w1 (clock_reads w1) <> clock w2 (clock_reads w2) ->
  forall p1 t1 p2 t2,
    fst (generatePassword cfg w1) = Ok (p1, t1) ->
    fst (generatePassword cfg w2) = Ok (p2, t2) ->
    p1 <> p2.
Proof.
  intros V1 V2 Hne p1 t1 p2 t2 H1 H2 Hp. apply Hne.
  cbv [generatePassword generateTimestamp bind ret new_Date fst] in H1, H2.
  injection H1 as <- <-. injection H2 as <- <-.
  apply format_timestamp_inj; try assumption.
  unfold derive_password in Hp. rewrite !app_assoc in Hp.
  apply to_base64_suffix_inj in Hp; [ exact Hp | | ];
    now apply format_timestamp_ascii.
Qed.

Lemma X4_password_changes_with_date_witness :
  derive_password sandbox_config (format_timestamp sample_date)
  <> derive_password sandbox_config (format_timestamp next_second).
Proof.
  destruct sample_dates_valid as [V1 V2].
  refine (@X4_password_changes_with_date sandbox_config sample_world
            later_world V1 V2 _ _ (format_timestamp sample_date)
            _ (format_timestamp next_second) eq_refl eq_refl).
  discriminate.
Defined.

(** ** The text of a base64 encoding *)

Lemma digit_in_alphabet (i : N) :
  (i < 64)%N -> base64_char (Base64.digit i).
Proof.
  intros H. left. unfold Base64.digit. apply nth_In.
  change (List.length Base64.alphabet) with 64%nat. lia.
Qed.

Lemma base64_encode_chars (bs : list Byte.byte) :
  Forall base64_char (Base64.encode bs).
Proof.
  pattern bs. apply list_ind_triples; clear bs;
    [ | intros x | intros x y | intros x y z bs IH ];
    cbn [Base64.encode]; try constructor.
  all: try byte_facts x; try byte_facts y; try byte_facts z.
  all: repeat match goal with
              | |- Forall _ (_ :: _) => constructor
              | |- Forall _ [] => constructor
              | |- base64_char (Base64.digit _) =>
                  apply digit_in_alphabet; lia
              | |- base64_char Base64.pad => now right
              end.
  all: try (apply digit_in_alphabet; lia).
  exact IH.
Qed.

Lemma base64_encode_length (bs : list Byte.byte) :
  List.length (Base64.encode bs) = (4 * ((List.length bs + 2) / 3))%nat.
Proof.
  pattern bs. apply list_ind_triples; clear bs;
    [ | intros x | intros x y | intros x y z bs IH ];
    try reflexivity.
  cbn [Base64.encode List.length]. rewrite IH.
  replace (S (S (S (List.length bs))) + 2)%nat
    with (List.length bs + 2 + 1 * 3)%nat by lia.
  rewrite Nat.div_add by discriminate. lia.
Qed.

(** X5: what [Buffer.from(s).toString('base64')] returns consists of
    characters of the base64 alphabet and [=] only; its length is four
    characters for every three bytes of the UTF-8 encoding of [s], rounded
    up, and the UTF-8 encoding of ASCII text is as long as the text. *)
Theorem X5_base64_text (s : jsstring) :
  Forall base64_char (to_base64 s) /\
  List.length (to_base64 s)
  = (4 * ((List.length (Utf8.encode s) + 2) / 3))%nat /\
  (ascii_only s -> List.length (Utf8.encode s) = List.length s).
Proof.
  unfold to_base64. split; [ | split ].
  - apply base64_encode_chars.
  - apply base64_encode_length.
  - intros H. rewrite utf8_encode_ascii by assumption. apply length_map.
Qed.

Lemma X5_base64_text_witness :
  List.length (Utf8.encode (lit "174379")) = 6%nat.
Proof.
  apply (proj2 (proj2 (X5_base64_text (lit "174379")))).
  repeat constructor.
Defined.

(** ** The choice of the environment *)

(** X6: the three gateway URLs always belong to one environment: the
    production host when [MPESA_ENVIRONMENT] is exactly [production], the
    sandbox host for every other value, an unset variable included. *)
Theorem X6_one_environment (cfg : config) :
  (environment cfg = Some (lit "production") /\
   startsWith (oauth_url cfg) (lit "https://api.safaricom.co.ke/") = true /\
   startsWith (stkpush_url cfg) (lit "https://api.safaricom.co.ke/") = true /\
   startsWith (query_url cfg) (lit "https://api.safaricom.co.ke/") = true) \/
  (environment cfg <> Some (lit "production") /\
   startsWith (oauth_url cfg) (lit "https://sandbox.safaricom.co.ke/") = true /\
   startsWith (stkpush_url cfg) (lit "https://sandbox.safaricom.co.ke/") = true /\
   startsWith (query_url cfg) (lit "https://sandbox.safaricom.co.ke/") = true).
Proof.
  assert (R : forall a b, JsString.eqb a b = true <-> a = b).
  { induction a as [|x a IH]; intros [|y b]; cbn [JsString.eqb];
      split; intros H; try discriminate; try reflexivity.
    - apply andb_true_iff in H as [Hx Ha]. apply N.eqb_eq in Hx.
      apply IH in Ha. congruence.
    - injection H as -> ->. rewrite N.eqb_refl. now apply IH. }
  unfold oauth_url, stkpush_url, query_url, production.
  destruct (environment cfg) as [e|].
  - destruct (JsString.eqb e (lit "production")) eqn:E.
    + left. apply R in E. subst e. repeat split.
    + right. repeat split. intros H. injection H as ->.
      discriminate E.
  - right. repeat split. discriminate.
Qed.

(** ** The token fetcher *)

(** X7: [generateAccessToken] sends exactly one request, a GET of the
    OAuth URL with the Basic credentials.  A rejection is logged and thrown
    again unchanged; an answer that is [null] or [undefined] throws; any
    other answer gives its [access_token], [undefined] when it has none,
    without an error. *)
Theorem X7_token_fetch (cfg : config) (w : world) :
  let sent :=
    mk_world (clock w) (clock_reads w) (gateway w) (S (gateway_calls w))
             (trace w ++ [AxiosGet (oauth_url cfg) (basic_auth cfg)]) in
  (forall e,
      gateway w (gateway_calls w) = Rejected e ->
      generateAccessToken cfg w
      = (Throw e,
         after sent [ConsoleError (lit "Error generating access token:")
                                  (error_details e)])) /\
  (forall data,
      gateway w (gateway_calls w) = Resolved data ->
      nullish data = false ->
      generateAccessToken cfg w = (Ok (field data "access_token"), sent)) /\
  (forall data,
      gateway w (gateway_calls w) = Resolved data ->
      nullish data = true ->
      exists e,
        generateAccessToken cfg w
        = (Throw e,
           after sent [ConsoleError (lit "Error generating access token:")
                                    (JStr (message e))])).
Proof.
  cbv zeta. unfold basic_auth. repeat split.
  - intros e H. run. rewrite H. reflexivity.
  - intros data H Hn. run. rewrite H. run.
    rewrite (@get_field data "access_token"%string Hn). reflexivity.
  - intros data H Hn. run. rewrite H. run.
    destruct data; try discriminate; eexists; reflexivity.
Qed.

Lemma X7_token_fetch_witness :
  fst (generateAccessToken sandbox_config sample_world)
  = Ok (JStr (lit "token")) /\
  fst (generateAccessToken sandbox_config refusing_world)
  = Throw unauthorized /\
  exists e, fst (generateAccessToken sandbox_config no_token_world) = Throw e.
Proof.
  split; [ | split ].
  - rewrite (proj1 (proj2 (X7_token_fetch sandbox_config sample_world))
               _ eq_refl eq_refl).
    reflexivity.
  - rewrite (proj1 (X7_token_fetch sandbox_config refusing_world)
               unauthorized eq_refl).
    reflexivity.
  - destruct (proj2 (proj2 (X7_token_fetch sandbox_config no_token_world))
                JNull eq_refl eq_refl) as [e He].
    exists e. now rewrite He.
Defined.

(** ** Push submission, path by path *)

Lemma stkpush_valid_request (cfg : config) (body : jsval) (w : world)
      (s : jsstring) :
  field body "phoneNumber" = JStr s -> s <> [] ->
  truthy (field body "amount") = true ->
  stkpush cfg body w
  = try_catch
      (bind (generateAccessToken cfg) (fun accessToken =>
       bind (generatePassword cfg) (fun pt =>
       bind (axios_post (stkpush_url cfg)
               (stk_payload cfg (snd pt) (formattedPhone s)
                  (field body "amount")
                  (js_or (field body "accountReference")
                         (JStr (lit "Food Order")))
                  (js_or (field body "description")
                         (JStr (lit "Payment for food order"))))
               accessToken) (fun data =>
       bind (lift (get data (lit "CheckoutRequestID")))
            (fun checkoutRequestID =>
       ret (mk_response 200
              (Json (JObj [(lit "success", JBool true);
                           (lit "message",
                             JStr (lit "STK Push initiated successfully"));
                           (lit "data", data);
                           (lit "checkoutRequestID",
                             checkoutRequestID)]))))))))
      (fun error =>
         bind (console_error (lit "STK Push error:") (error_details error))
              (fun _ =>
         ret (mk_response 500
                (Json (JObj [(lit "error",
                               JStr (lit "Failed to initiate STK Push"));
                             (lit "details", error_details error)])))))
      w.
Proof.
  intros Hp Hs Ha. unfold field in *.
  destruct body; cbn [get] in *; try discriminate.
  unfold stkpush, try_catch at 1, bind at 1 2 3 4 5 6, lift at 1 2 3 4 5 6,
    destructure.
  cbn [nullish get]. rewrite Hp, Ha.
  destruct s as [|c s]; [ congruence | ].
  reflexivity.
Qed.

Lemma token_granted (cfg : config) (w : world) (data : jsval) :
  gateway w (gateway_calls w) = Resolved data ->
  nullish data = false ->
  generateAccessToken cfg w
  = (Ok (field data "access_token"),
     mk_world (clock w) (clock_reads w) (gateway w) (S (gateway_calls w))
              (trace w ++ [AxiosGet (oauth_url cfg) (basic_auth cfg)])).
Proof.
  intros H Hn. unfold basic_auth. run. rewrite H. run.
  rewrite (@get_field data "access_token"%string Hn). reflexivity.
Qed.

Lemma token_refused (cfg : config) (w : world) (e : js_error) :
  gateway w (gateway_calls w) = Rejected e ->
  generateAccessToken cfg w
  = (Throw e,
     mk_world (clock w) (clock_reads w) (gateway w) (S (gateway_calls w))
              (trace w ++ [AxiosGet (oauth_url cfg) (basic_auth cfg);
                           ConsoleError (lit "Error generating access token:")
                                        (error_details e)])).
Proof.
  intros H. unfold basic_auth. run. rewrite H. run.
  now rewrite <- app_assoc.
Qed.

Ltac run_handler :=
  cbv beta iota zeta delta
    [try_catch bind ret throw lift emit settle axios_post console_log
     console_error new_Date generatePassword generateTimestamp after];
  cbn [fst snd clock clock_reads gateway gateway_calls trace status body].

(** X8: a request with a non-empty string as phone number and a truthy
    amount, in a world where the gateway grants the token and accepts the
    submission with an answer other than [null], is answered 200 with the
    gateway's answer and its [CheckoutRequestID]; the server has read the
    clock once and sent two requests: the token request, then the payload
    with the normalized phone as [PartyA] and [PhoneNumber], the shortcode
    as [BusinessShortCode] and [PartyB], the amount as sent, and [Food
    Order] and [Payment for food order] in place of an absent or falsy
    reference or description. *)
Theorem X8_push_accepted (cfg : config) (body : jsval) (w : world)
        (s : jsstring) (data answer : jsval) :
  field body "phoneNumber" = JStr s -> s <> [] ->
  truthy (field body "amount") = true ->
  gateway w (gateway_calls w) = Resolved data -> nullish data = false ->
  gateway w (S (gateway_calls w)) = Resolved answer ->
  nullish answer = false ->
  stkpush cfg body w
  = (Ok (mk_response 200
           (Json (JObj [(lit "success", JBool true);
                        (lit "message",
                          JStr (lit "STK Push initiated successfully"));
                        (lit "data", answer);
                        (lit "checkoutRequestID",
                          field answer "CheckoutRequestID")]))),
     mk_world (clock w) (S (clock_reads w)) (gateway w)
              (S (S (gateway_calls w)))
              (trace w
               ++ [AxiosGet (oauth_url cfg) (basic_auth cfg);
                   AxiosPost (stkpush_url cfg)
                     (stk_payload cfg
                        (format_timestamp (clock w (clock_reads w)))
                        (formattedPhone s) (field body "amount")
                        (js_or (field body "accountReference")
                               (JStr (lit "Food Order")))
                        (js_or (field body "description")
                               (JStr (lit "Payment for food order"))))
                     (field data "access_token")])).
Proof.
  intros Hp Hs Ha Hd Hdn Hr Hrn.
  rewrite (stkpush_valid_request cfg body w Hp Hs Ha).
  unfold try_catch, bind at 1. rewrite (token_granted cfg w Hd Hdn).
  run_handler. rewrite Hr.
  rewrite (@get_field answer "CheckoutRequestID"%string Hrn).
  now rewrite <- app_assoc.
Qed.

Lemma X8_push_accepted_witness :
  map (fun payload => (field payload "PartyA", field payload "PartyB",
                       field payload "AccountReference"))
      (posted_payloads
         (trace (snd (stkpush sandbox_config
                        (push_request (JStr (lit "0712345678")) (JNum 100))
                        sample_world))))
  = [(JStr (lit "254712345678"), JStr (lit "174379"),
      JStr (lit "Food Order"))].
Proof.
  rewrite (@X8_push_accepted sandbox_config
             (push_request (JStr (lit "0712345678")) (JNum 100))
             sample_world (lit "0712345678") _ _
             eq_refl ltac:(discriminate) eq_refl eq_refl eq_refl
             eq_refl eq_refl).
  reflexivity.
Defined.

(** X9: when the gateway rejects the token request or the submission, the
    push route answers 500 with [details]: the payload of the rejection
    when that is truthy, else the error's message.  A refused token stops
    the route before it reads the clock or posts anything. *)
Theorem X9_push_rejected (cfg : config) (body : jsval) (w : world)
        (s : jsstring) (e : js_error) :
  field body "phoneNumber" = JStr s -> s <> [] ->
  truthy (field body "amount") = true ->
  let details :=
    if truthy (response_data e) then response_data e
    else JStr (message e) in
  let answer :=
    mk_response 500
      (Json (JObj [(lit "error", JStr (lit "Failed to initiate STK Push"));
                   (lit "details", details)])) in
  (gateway w (gateway_calls w) = Rejected e ->
   stkpush cfg body w
   = (Ok answer,
      mk_world (clock w) (clock_reads w) (gateway w) (S (gateway_calls w))
        (trace w
         ++ [AxiosGet (oauth_url cfg) (basic_auth cfg);
             ConsoleError (lit "Error generating access token:") details;
             ConsoleError (lit "STK Push error:") details]))) /\
  (forall data,
      gateway w (gateway_calls w) = Resolved data -> nullish data = false ->
      gateway w (S (gateway_calls w)) = Rejected e ->
      fst (stkpush cfg body w) = Ok answer /\
      network_calls (trace (snd (stkpush cfg body w)))
      = network_calls (trace w)
        ++ [AxiosGet (oauth_url cfg) (basic_auth cfg);
            AxiosPost (stkpush_url cfg)
              (stk_payload cfg
                 (format_timestamp (clock w (clock_reads w)))
                 (formattedPhone s) (field body "amount")
                 (js_or (field body "accountReference")
                        (JStr (lit "Food Order")))
                 (js_or (field body "description")
                        (JStr (lit "Payment for food order"))))
              (field data "access_token")]).
Proof.
  intros Hp Hs Ha. cbv zeta. split.
  - intros He.
    rewrite (stkpush_valid_request cfg body w Hp Hs Ha).
    unfold try_catch, bind at 1. rewrite (token_refused cfg w He).
    run_handler. now rewrite <- app_assoc.
  - intros data Hd Hdn He.
    assert (E : exists evs,
               stkpush cfg body w
               = (Ok (mk_response 500
                        (Json (JObj [(lit "error",
                                       JStr (lit "Failed to initiate STK Push"));
                                     (lit "details", error_details e)]))),
                  mk_world (clock w) (S (clock_reads w)) (gateway w)
                           (S (S (gateway_calls w)))
                           (trace w ++ evs)) /\
               network_calls evs
               = [AxiosGet (oauth_url cfg) (basic_auth cfg);
                  AxiosPost (stkpush_url cfg)
                    (stk_payload cfg
                       (format_timestamp (clock w (clock_reads w)))
                       (formattedPhone s) (field body "amount")
                       (js_or (field body "accountReference")
                              (JStr (lit "Food Order")))
                       (js_or (field body "description")
                              (JStr (lit "Payment for food order"))))
                    (field data "access_token")]).
    { rewrite (stkpush_valid_request cfg body w Hp Hs Ha).
      unfold try_catch, bind at 1. rewrite (token_granted cfg w Hd Hdn).
      run_handler. rewrite He. run_handler.
      eexists. rewrite <- !app_assoc. cbn [app].
      split; reflexivity. }
    destruct E as (evs & -> & Hn). cbn [fst snd trace].
    split; [ reflexivity | ].
    unfold network_calls in *. now rewrite filter_app, Hn.
Qed.

Lemma X9_push_rejected_witness :
  fst (stkpush sandbox_config
         (push_request (JStr (lit "0712345678")) (JNum 100)) refusing_world)
  = Ok (mk_response 500
          (Json (JObj [(lit "error", JStr (lit "Failed to initiate STK Push"));
                       (lit "details", response_data unauthorized)]))) /\
  fst (stkpush sandbox_config
         (push_request (JStr (lit "0712345678")) (JNum 100)) rejecting_world)
  = Ok (mk_response 500
          (Json (JObj [(lit "error", JStr (lit "Failed to initiate STK Push"));
                       (lit "details", response_data not_found)]))).
Proof.
  split.
  - rewrite (proj1 (@X9_push_rejected sandbox_config
                      (push_request (JStr (lit "0712345678")) (JNum 100))
                      refusing_world (lit "0712345678") unauthorized
                      eq_refl ltac:(discriminate) eq_refl) eq_refl).
    reflexivity.
  - apply (proj2 (@X9_push_rejected sandbox_config
                    (push_request (JStr (lit "0712345678")) (JNum 100))
                    rejecting_world (lit "0712345678") not_found
                    eq_refl ltac:(discriminate) eq_refl) _ eq_refl eq_refl
                 eq_refl).
Defined.

Lemma stkpush_after_token (cfg : config) (body : jsval) (w : world)
      (s : jsstring) (data : jsval) :
  field body "phoneNumber" = JStr s -> s <> [] ->
  truthy (field body "amount") = true ->
  gateway w (gateway_calls w) = Resolved data -> nullish data = false ->
  let sent evs :=
    mk_world (clock w) (S (clock_reads w)) (gateway w)
      (S (S (gateway_calls w)))
      (trace w
       ++ AxiosGet (oauth_url cfg) (basic_auth cfg)
          :: AxiosPost (stkpush_url cfg)
               (stk_payload cfg
                  (format_timestamp (clock w (clock_reads w)))
                  (formattedPhone s) (field body "amount")
                  (js_or (field body "accountReference")
                         (JStr (lit "Food Order")))
                  (js_or (field body "description")
                         (JStr (lit "Payment for food order"))))
               (field data "access_token")
          :: evs) in
  let failed e :=
    (Ok (mk_response 500
           (Json (JObj [(lit "error", JStr (lit "Failed to initiate STK Push"));
                        (lit "details", error_details e)]))),
     sent [ConsoleError (lit "STK Push error:") (error_details e)]) in
  stkpush cfg body w
  = match gateway w (S (gateway_calls w)) with
    | Resolved answer =>
        match get answer (lit "CheckoutRequestID") with
        | Ok checkoutRequestID =>
            (Ok (mk_response 200
                   (Json (JObj [(lit "success", JBool true);
                                (lit "message",
                                  JStr (lit "STK Push initiated successfully"));
                                (lit "data", answer);
                                (lit "checkoutRequestID",
                                  checkoutRequestID)]))),
             sent [])
        | Throw e => failed e
        end
    | Rejected e => failed e
    end.
Proof.
  intros Hp Hs Ha Hd Hdn. cbv zeta.
  rewrite (stkpush_valid_request cfg body w Hp Hs Ha).
  unfold try_catch, bind at 1. rewrite (token_granted cfg w Hd Hdn).
  run_handler.
  destruct (gateway w (S (gateway_calls w))) as [answer|e]; run_handler.
  - destruct (get answer (lit "CheckoutRequestID")); run_handler;
      rewrite <- !app_assoc; reflexivity.
  - rewrite <- !app_assoc. reflexivity.
Qed.

(** X10: when the gateway accepts the submission and answers [null] (or
    nothing that axios can read), the payload has been posted, yet reading
    [CheckoutRequestID] throws and the client is told that the push
    failed. *)
Theorem X10_push_accepted_with_null_answer
        (cfg : config) (body : jsval) (w : world)
        (s : jsstring) (data answer : jsval) :
  field body "phoneNumber" = JStr s -> s <> [] ->
  truthy (field body "amount") = true ->
  gateway w (gateway_calls w) = Resolved data -> nullish data = false ->
  gateway w (S (gateway_calls w)) = Resolved answer ->
  nullish answer = true ->
  fst (stkpush cfg body w)
  = Ok (mk_response 500
          (Json (JObj [(lit "error", JStr (lit "Failed to initiate STK Push"));
                       (lit "details",
                         JStr (lit "Cannot read properties of "
                               ++ type_name answer
                               ++ lit " (reading 'CheckoutRequestID')"))]))) /\
  posted_payloads (trace (snd (stkpush cfg body w)))
  = posted_payloads (trace w)
    ++ [stk_payload cfg (format_timestamp (clock w (clock_reads w)))
          (formattedPhone s) (field body "amount")
          (js_or (field body "accountReference") (JStr (lit "Food Order")))
          (js_or (field body "description")
                 (JStr (lit "Payment for food order")))].
Proof.
  intros Hp Hs Ha Hd Hdn Hr Hrn.
  rewrite (stkpush_after_token cfg body w Hp Hs Ha Hd Hdn), Hr.
  destruct answer; try discriminate; cbn [get fst snd trace];
    (split; [ reflexivity | payloads; reflexivity ]).
Qed.

Lemma X10_push_accepted_with_null_answer_witness :
  status_of (stkpush sandbox_config
               (push_request (JStr (lit "0712345678")) (JNum 100))
               null_world) = Some 500%Z /\
  List.length
    (posted_payloads
       (trace (snd (stkpush sandbox_config
                      (push_request (JStr (lit "0712345678")) (JNum 100))
                      null_world)))) = 1%nat.
Proof.
  destruct (@X10_push_accepted_with_null_answer sandbox_config
              (push_request (JStr (lit "0712345678")) (JNum 100))
              null_world (lit "0712345678") _ JNull
              eq_refl ltac:(discriminate) eq_refl eq_refl eq_refl
              eq_refl eq_refl) as [H1 H2].
  unfold status_of. rewrite H1, H2. split; reflexivity.
Defined.

(** X11: a request without a body ([req.body] is [null] or [undefined])
    is not answered 400: destructuring throws, and the answer is the 500 of
    the catch block, after no network call. *)
Theorem X11_push_without_body (cfg : config) (body : jsval) (w : world) :
  nullish body = true ->
  let details :=
    JStr (lit "Cannot destructure property 'phoneNumber' of 'req.body' as it is "
          ++ type_name body ++ lit ".") in
  stkpush cfg body w
  = (Ok (mk_response 500
           (Json (JObj [(lit "error", JStr (lit "Failed to initiate STK Push"));
                        (lit "details", details)]))),
     after w [ConsoleError (lit "STK Push error:") details]).
Proof.
  intros H. cbv zeta. run. unfold destructure. rewrite H. reflexivity.
Qed.

Lemma X11_push_without_body_witness :
  status_of (stkpush sandbox_config JUndefined sample_world) = Some 500%Z /\
  network_calls
    (trace (snd (stkpush sandbox_config JUndefined sample_world))) = [].
Proof.
  rewrite (@X11_push_without_body sandbox_config JUndefined sample_world
             eq_refl).
  split; reflexivity.
Defined.

(** ** What the routes never do *)

Ltac trace_shape :=
  rewrite <- ?app_assoc; cbn [app];
  first [ exists []; split; [ now rewrite app_nil_r | ]
        | eexists; split; [ reflexivity | ] ].

(** X12: whatever the request and whatever the gateway does, the push
    route answers (it never throws) with 200, 400 or 500, and on the
    network it does nothing, or fetches the token, or fetches the token and
    then posts one payload to the push URL, in this order; it counts one
    gateway call for each.  A 400 comes after no call, a 200 only after the
    post. *)
Theorem X12_push_network_discipline
        (cfg : config) (body : jsval) (w : world) :
  exists r evs,
    fst (stkpush cfg body w) = Ok r /\
    trace (snd (stkpush cfg body w)) = trace w ++ evs /\
    gateway_calls (snd (stkpush cfg body w))
    = (gateway_calls w + List.length (network_calls evs))%nat /\
    ((network_calls evs = [] /\ (status r = 400 \/ status r = 500)%Z) \/
     (network_calls evs = [AxiosGet (oauth_url cfg) (basic_auth cfg)] /\
      status r = 500%Z) \/
     (exists payload token,
         network_calls evs
         = [AxiosGet (oauth_url cfg) (basic_auth cfg);
            AxiosPost (stkpush_url cfg) payload token] /\
         (status r = 200 \/ status r = 500)%Z)).
Proof.
  unfold basic_auth. run. repeat branch.
  all: eexists; rewrite <- ?app_assoc; cbn [app];
    first [ exists []; split; [ reflexivity | ];
            split; [ now rewrite app_nil_r | ]
          | eexists; split; [ reflexivity | ];
            split; [ reflexivity | ] ].
  all: cbn [network_calls filter is_network List.length status].
  all: split; [ lia | ].
  all: first [ left; split; [ reflexivity | auto ]
             | right; left; split; [ reflexivity | auto ]
             | right; right; eexists _, _; split; [ reflexivity | auto ] ].
Qed.

(** X13: whatever the gateway does, the status route answers, with 200
    or 500; on the network it fetches the token and then, if it got one,
    posts one query that carries the route parameter unchanged as
    [CheckoutRequestID] and the shortcode as [BusinessShortCode].  The 200
    passes on what the gateway answered, unmodified. *)
Theorem X13_status_query_discipline
        (cfg : config) (id : jsstring) (w : world) :
  exists r evs,
    fst (payment_status cfg id w) = Ok r /\
    trace (snd (payment_status cfg id w)) = trace w ++ evs /\
    ((network_calls evs = [AxiosGet (oauth_url cfg) (basic_auth cfg)] /\
      posted_payloads evs = [] /\
      clock_reads (snd (payment_status cfg id w)) = clock_reads w /\
      r = mk_response 500
            (Json (json_error "Failed to check payment status"))) \/
     (exists payload token,
         network_calls evs
         = [AxiosGet (oauth_url cfg) (basic_auth cfg);
            AxiosPost (query_url cfg) payload token] /\
         field payload "CheckoutRequestID" = JStr id /\
         field payload "BusinessShortCode"
         = env_value (businessShortCode cfg) /\
         clock_reads (snd (payment_status cfg id w))
         = S (S (clock_reads w)) /\
         ((exists answer,
              gateway w (S (gateway_calls w)) = Resolved answer /\
              r = mk_response 200 (Json answer)) \/
          r = mk_response 500
                (Json (json_error "Failed to check payment status"))))).
Proof.
  unfold basic_auth. run. repeat branch.
  all: eexists; rewrite <- ?app_assoc; cbn [app];
    eexists; (split; [ reflexivity | ]); (split; [ reflexivity | ]).
  all: cbn [network_calls posted_payloads flat_map filter is_network app].
  all: first [ left; repeat split; reflexivity
             | right; eexists _, _; split; [ reflexivity | ];
               repeat split; eauto ].
Qed.

(** X14: the callback route stays local: it never calls the gateway and
    never reads the clock.  It adds two lines to the console, the first
    being the body it received, in full, whatever the body is. *)
Theorem X14_callback_stays_local (v : jsval) (w : world) :
  exists line,
    snd (callback v w)
    = after w [ConsoleLog (lit "Mpesa Callback Received:") v; line] /\
    is_network line = false.
Proof.
  run. repeat branch.
  all: rewrite <- ?app_assoc; cbn [app]; eexists; split; reflexivity.
Qed.

(** ** The order route *)

(** X15: the order route validates nothing.  Every body other than
    [null] and [undefined] is answered 200 with the order ID, [ORD-]
    followed by the milliseconds of [Date.now()]; the logged order copies
    the five members as they came, [undefined] for an absent one, and its
    status is [pending_payment] exactly when [paymentMethod] is the string
    [Mpesa], else [pending].  A missing body is answered 500. *)
Theorem X15_order_route (body : jsval) (now : Z) (date : Date) :
  (nullish body = false ->
   Orders.orders body now date
   = (mk_response 200
        (Json (JObj [(lit "success", JBool true);
                     (lit "orderId", JStr (lit "ORD-" ++ of_int now));
                     (lit "message",
                       JStr (lit "Order created successfully"))])),
      Orders.OrderCreated
        (Orders.mk_Order
           (lit "ORD-" ++ of_int now)
           (field body "customerInfo") (field body "cartItems")
           (field body "total") (field body "deliveryAddress")
           (field body "paymentMethod")
           (if strict_eq_str (field body "paymentMethod") (lit "Mpesa")
            then lit "pending_payment" else lit "pending")
           date))) /\
  (nullish body = true ->
   exists e,
     Orders.orders body now date
     = (mk_response 500 (Json (json_error "Failed to create order")),
        Orders.OrderCreationError e)).
Proof.
  split; intros H; unfold Orders.orders, Orders.build, Orders.destructure;
    rewrite H.
  - unfold field. destruct body; try discriminate; reflexivity.
  - eexists. reflexivity.
Qed.

Lemma X15_order_route_witness :
  fst (Orders.orders sample_order 1767225600000 sample_date)
  = mk_response 200
      (Json (JObj [(lit "success", JBool true);
                   (lit "orderId", JStr (lit "ORD-1767225600000"));
                   (lit "message", JStr (lit "Order created successfully"))])) /\
  fst (Orders.orders (JObj []) 1767225600000 sample_date)
  = fst (Orders.orders sample_order 1767225600000 sample_date) /\
  status (fst (Orders.orders JNull 1767225600000 sample_date)) = 500%Z.
Proof.
  split; [ | split ].
  - rewrite (proj1 (X15_order_route sample_order 1767225600000 sample_date)
               eq_refl).
    reflexivity.
  - rewrite (proj1 (X15_order_route (JObj []) 1767225600000 sample_date)
               eq_refl).
    rewrite (proj1 (X15_order_route sample_order 1767225600000 sample_date)
               eq_refl).
    reflexivity.
  - destruct (proj2 (X15_order_route JNull 1767225600000 sample_date)
                eq_refl) as [e ->].
    reflexivity.
Defined.

Lemma order_id (body : jsval) (now : Z) (date : Date)
      (order : Orders.Order) :
  snd (Orders.orders body now date) = Orders.OrderCreated order ->
  Orders.orderId order = lit "ORD-" ++ of_int now.
Proof.
  unfold Orders.orders.
  destruct (Orders.build body now date) as [o|e] eqn:E;
    cbn [snd]; intros H; [ | discriminate H ].
  injection H as <-. unfold Orders.build in E.
  repeat match type of E with
         | match ?x with _ => _ end = _ => destruct x; try discriminate E
         end.
  now injection E as <-.
Qed.

(** X16: two orders get the same ID exactly when they are created in the
    same millisecond, whatever they contain: the ID is a function of
    [Date.now()] alone, and different milliseconds give different IDs. *)
Theorem X16_order_id_collision
        (body1 body2 : jsval) (now1 now2 : Z) (date1 date2 : Date)
        (order1 order2 : Orders.Order) :
  snd (Orders.orders body1 now1 date1) = Orders.OrderCreated order1 ->
  snd (Orders.orders body2 now2 date2) = Orders.OrderCreated order2 ->
  (Orders.orderId order1 = Orders.orderId order2 <-> now1 = now2).
Proof.
  intros H1 H2. rewrite (order_id _ _ _ H1), (order_id _ _ _ H2). split.
  - intros H. apply app_inv_head in H. now apply of_int_inj.
  - now intros ->.
Qed.

Lemma X16_order_id_collision_witness :
  exists order1 order2,
    snd (Orders.orders sample_order 1767225600000 sample_date)
    = Orders.OrderCreated order1 /\
    snd (Orders.orders (JObj []) 1767225600000 next_second)
    = Orders.OrderCreated order2 /\
    Orders.customerInfo order1 <> Orders.customerInfo order2 /\
    Orders.orderId order1 = Orders.orderId order2.
Proof.
  eexists _, _. split; [ reflexivity | split; [ reflexivity | split ] ].
  - discriminate.
  - apply (proj2 (@X16_order_id_collision
                    sample_order (JObj []) 1767225600000 1767225600000
                    sample_date next_second _ _ eq_refl eq_refl)).
    reflexivity.
Defined.
